(** * Moving-average strategies and their benchmark harness

    A shallow embedding of [strategies.py] (the two streaming strategies)
    and [profiler.py] / [data_loader.py] (the harness that replays ticks
    through them), with the properties of the specification stated over it.

    Python floats are IEEE 754 binary64 numbers, so prices, running sums
    and averages are Rocq's primitive [float]s: the model rounds exactly
    where the program rounds.  Python integers are unbounded ([Z]); the
    bounds of the machine representation (the largest length of a list,
    the largest [maxlen] of a deque) are left out.  Python exceptions are
    an explicit [Raise] outcome; object fields mutated before an exception
    is raised stay mutated, so every method returns the new object state
    next to its outcome. *)

From Stdlib Require Import ZArith List String Bool Lia.
From Stdlib Require Import Floats.
Import ListNotations.

Local Open Scope string_scope.
Local Open Scope list_scope.
Local Open Scope Z_scope.

(** ** Outcomes of Python code *)

Inductive exn : Type :=
| ZeroDivisionError
| IndexError
| ValueError
| OverflowError
| OSError.

Inductive result (A : Type) : Type :=
| Ok (a : A)
| Raise (e : exn).

Arguments Ok {A} a.
Arguments Raise {A} e.

Definition bind {A B : Type} (r : result A) (f : A -> result B) : result B :=
  match r with
  | Ok a => f a
  | Raise e => Raise e
  end.

Notation "x <- r ;; k" := (bind r (fun x => k))
  (at level 61, r at next level, right associativity).

(** ** Data model *)

(** Modelled from the spec: [models.py] (the [MarketDataPoint] value class
    and the abstract [Strategy] base class) is not among the sources.  A
    tick is an immutable value with a point in time, an instrument
    identifier and a floating-point price; a strategy is an object with a
    [generate_signals(tick)] method (see [strategy_class] below).  The
    tests build ticks with small integer prices, which behave as the
    floats of the same value. *)
Record MarketDataPoint : Type := {
  timestamp : Z;
  symbol : string;
  price : float
}.

(** The three strings ["Hold"], ["Long"] and ["Short"]. *)
Inductive signal : Type := Hold | Long | Short.

(** [len(xs)] as a Python integer. *)
Definition len {A : Type} (xs : list A) : Z := Z.of_nat (List.length xs).

(** ** Python arithmetic used by the strategies *)

(** The interpreter.  The builtin [sum] adds floats left to right up to
    CPython 3.11 and carries Neumaier's compensation term from CPython
    3.12 on; nothing else below depends on the version. *)
Inductive cpython : Type := Before_3_12 | From_3_12.

(** The float additions of [0 + x1 + ... + xn], left to right; the integer
    [0] enters the first addition as [0.0]. *)
Definition sum_left (xs : list float) : float :=
  fold_left PrimFloat.add xs PrimFloat.zero.

(** One step of the compensated loop of [sum]: [f_result] is the running
    total and [c] the compensation. *)
Definition neumaier_step (acc : float * float) (x : float) : float * float :=
  let '(f_result, c) := acc in
  let t := PrimFloat.add f_result x in
  (t,
   PrimFloat.add c
     (if PrimFloat.leb (PrimFloat.abs x) (PrimFloat.abs f_result)
      then PrimFloat.add (PrimFloat.sub f_result t) x
      else PrimFloat.add (PrimFloat.sub x t) f_result)).

(** The compensated [sum]: the first float is added to the integer start
    value [0], the others go through the compensated loop, and a finite
    non-zero compensation is added at the end. *)
Definition sum_compensated (xs : list float) : float :=
  match xs with
  | [] => PrimFloat.zero
  | x :: xs' =>
      let '(f_result, c) :=
        fold_left neumaier_step xs' (PrimFloat.add PrimFloat.zero x,
                                     PrimFloat.zero) in
      if negb (PrimFloat.eqb c PrimFloat.zero) && PrimFloat.is_finite c
      then PrimFloat.add f_result c
      else f_result
  end.

(** [sum(xs)] for a non-empty list of floats ([sum([])] is the integer
    [0], see [mean_of]). *)
Definition builtin_sum (v : cpython) (xs : list float) : float :=
  match v with
  | Before_3_12 => sum_left xs
  | From_3_12 => sum_compensated xs
  end.

(** [float(k)] for a Python integer [k]: the nearest binary64 number, ties
    to even, [OverflowError] beyond the range of floats.  Below [2^63] the
    primitive conversion computes it. *)
Definition float_of_int (k : Z) : result float :=
  if Z.abs k <? 2 ^ 63 then
    let m := PrimFloat.of_uint63 (Uint63.of_Z (Z.abs k)) in
    Ok (if k <? 0 then PrimFloat.opp m else m)
  else
    match binary_normalize prec emax k 0 false with
    | S754_infinity _ => Raise OverflowError
    | sf => Ok (SF2Prim sf)
    end.

(** [x / k] for a float [x] and an integer [k]: [k] is converted to a float
    and a zero divisor raises [ZeroDivisionError]; the converted divisor is
    zero exactly when [k] is. *)
Definition float_truediv (x : float) (k : Z) : result float :=
  d <- float_of_int k ;;
  if k =? 0 then Raise ZeroDivisionError else Ok (PrimFloat.div x d).

(** [sum(window) / k]: the sum of an empty list is the integer [0], and
    the quotient of the integers [0] and [k] is a zero with the sign of
    [k]. *)
Definition mean_of (v : cpython) (window : list float) (k : Z) : result float :=
  match window with
  | [] =>
      if k =? 0 then Raise ZeroDivisionError
      else Ok (if k <? 0 then PrimFloat.neg_zero else PrimFloat.zero)
  | _ :: _ => float_truediv (builtin_sum v window) k
  end.

(** [xs[i:]]: a negative start counts from the end, and the start is
    clamped into [0 .. len(xs)]. *)
Definition slice_from {A : Type} (xs : list A) (i : Z) : list A :=
  let start := if i <? 0 then Z.max (i + len xs) 0 else Z.min i (len xs) in
  skipn (Z.to_nat start) xs.

(** The comparison that ends both [generate_signals] methods. *)
Definition compare_to_average (p average : float) : list signal :=
  if PrimFloat.ltb average p then [Long]
  else if PrimFloat.ltb p average then [Short]
  else [Hold].

(** ** The strategies *)

Module NaiveMovingAverageStrategy.

Record t : Type := {
  window_size : Z;
  price_history : list float
}.

Definition __init__ (window_size : Z) : result t :=
  Ok {| window_size := window_size; price_history := [] |}.

Definition generate_signals (v : cpython) (self : t) (tick : MarketDataPoint)
  : t * result (list signal) :=
  let self := {| window_size := window_size self;
                 price_history := price_history self ++ [price tick] |} in
  if len (price_history self) <? window_size self then (self, Ok [Hold])
  else
    let window := slice_from (price_history self) (- window_size self) in
    (self,
     average <- mean_of v window (window_size self) ;;
     Ok (compare_to_average (price tick) average)).

End NaiveMovingAverageStrategy.

(** [collections.deque] with a [maxlen]. *)
Module deque.

(** [deque(maxlen = n)] rejects a negative [n]. *)
Definition new (maxlen : Z) : result (list float) :=
  if maxlen <? 0 then Raise ValueError else Ok [].

(** [d.append(x)]: the item goes to the right end, and a deque that is
    then longer than [maxlen] drops its leftmost item. *)
Definition append (maxlen : Z) (d : list float) (x : float) : list float :=
  let d' := d ++ [x] in
  if maxlen <? len d' then tl d' else d'.

(** [d[0]]. *)
Definition first (d : list float) : result float :=
  match d with
  | [] => Raise IndexError
  | x :: _ => Ok x
  end.

End deque.

Module WindowedMovingAverageStrategy.

Record t : Type := {
  window_size : Z;
  window : list float;
  running_sum : float
}.

Definition __init__ (window_size : Z) : result t :=
  w <- deque.new window_size ;;
  Ok {| window_size := window_size; window := w;
        running_sum := PrimFloat.zero |}.

Definition generate_signals (self : t) (tick : MarketDataPoint)
  : t * result (list signal) :=
  let evicted :=
    if len (window self) =? window_size self then
      oldest <- deque.first (window self) ;;
      Ok (PrimFloat.sub (running_sum self) oldest)
    else Ok (running_sum self) in
  match evicted with
  | Raise e => (self, Raise e)
  | Ok s =>
      let self := {| window_size := window_size self;
                     window := deque.append (window_size self)
                                 (window self) (price tick);
                     running_sum := PrimFloat.add s (price tick) |} in
      if len (window self) <? window_size self then (self, Ok [Hold])
      else
        (self,
         average <- float_truediv (running_sum self) (window_size self) ;;
         Ok (compare_to_average (price tick) average))
  end.

End WindowedMovingAverageStrategy.

(** ** Driving a strategy *)

(** A strategy class as its callers see it: a constructor that takes the
    window size, and the [generate_signals] method of its instances. *)
Record strategy_class : Type := {
  instance : Type;
  construct : Z -> result instance;
  generate_signals : instance -> MarketDataPoint
                     -> instance * result (list signal)
}.

Definition NaiveMovingAverageStrategy_class (v : cpython) : strategy_class :=
  {| instance := NaiveMovingAverageStrategy.t;
     construct := NaiveMovingAverageStrategy.__init__;
     generate_signals := NaiveMovingAverageStrategy.generate_signals v |}.

Definition WindowedMovingAverageStrategy_class : strategy_class :=
  {| instance := WindowedMovingAverageStrategy.t;
     construct := WindowedMovingAverageStrategy.__init__;
     generate_signals := WindowedMovingAverageStrategy.generate_signals |}.

(** The object after a sequence of calls, whatever their outcomes. *)
Definition state_after (c : strategy_class) (strategy : instance c)
  (ticks : list MarketDataPoint) : instance c :=
  fold_left (fun s tick => fst (generate_signals c s tick)) ticks strategy.

(** The signals a strategy returns for a tick sequence, in order; the
    first exception ends the replay. *)
Fixpoint signals (c : strategy_class) (strategy : instance c)
  (ticks : list MarketDataPoint) : result (list (list signal)) :=
  match ticks with
  | [] => Ok []
  | tick :: rest =>
      let '(strategy', out) := generate_signals c strategy tick in
      s <- out ;;
      ss <- signals c strategy' rest ;;
      Ok (s :: ss)
  end.

(** The signals of a fresh instance of a class. *)
Definition signals_of (c : strategy_class) (window_size : Z)
  (ticks : list MarketDataPoint) : result (list (list signal)) :=
  strategy <- construct c window_size ;;
  signals c strategy ticks.

(** A fresh instance of a class after it has processed [ticks]. *)
Definition instance_after (c : strategy_class) (window_size : Z)
  (ticks : list MarketDataPoint) : result (instance c) :=
  strategy <- construct c window_size ;;
  Ok (state_after c strategy ticks).

(** The outcome of the call for [tick] on a fresh instance that has
    processed [pre]. *)
Definition call_after (c : strategy_class) (window_size : Z)
  (pre : list MarketDataPoint) (tick : MarketDataPoint)
  : result (list signal) :=
  strategy <- instance_after c window_size pre ;;
  snd (generate_signals c strategy tick).

Definition naive_signals (v : cpython) :=
  signals_of (NaiveMovingAverageStrategy_class v).
Definition windowed_signals := signals_of WindowedMovingAverageStrategy_class.
Definition naive_after (v : cpython) :=
  instance_after (NaiveMovingAverageStrategy_class v).
Definition windowed_after := instance_after WindowedMovingAverageStrategy_class.
Definition naive_call (v : cpython) :=
  call_after (NaiveMovingAverageStrategy_class v).
Definition windowed_call := call_after WindowedMovingAverageStrategy_class.

(** ** The benchmark harness ([profiler.py], [data_loader.py]) *)

Definition WINDOW_SIZE : Z := 10.

(** [run_strategy]: every tick goes through [generate_signals] and the
    signals are dropped; an exception ends the loop. *)
Fixpoint run_strategy (c : strategy_class) (strategy : instance c)
  (data_points : list MarketDataPoint) : instance c * result unit :=
  match data_points with
  | [] => (strategy, Ok tt)
  | tick :: rest =>
      let '(strategy', out) := generate_signals c strategy tick in
      match out with
      | Raise e => (strategy', Raise e)
      | Ok _ => run_strategy c strategy' rest
      end
  end.

(** A value stored in a measurement record. *)
Inductive value : Type :=
| VStr (s : string)
| VInt (n : Z)
| VFloat (x : float).

(** A measurement record: a dict, its keys in insertion order. *)
Definition record : Type := list (string * value).

(** [n / (1024 * 1024)] for an integer byte count [n]: the divisor is a
    power of two, so the correctly rounded quotient of the two integers is
    [float(n)] divided by [1048576.0]. *)
Definition megabytes (memory_bytes : Z) : result float :=
  x <- float_of_int memory_bytes ;;
  Ok (PrimFloat.div x 1048576%float).

Section Harness.

(** The interpreter, and what the program reads from outside: the rows of
    a CSV file ([OSError] when it cannot be opened), each with the outcome
    of building its [MarketDataPoint] (a malformed timestamp or price
    raises); the successive readings of [timeit.default_timer]; and
    [pympler]'s size of a strategy object. *)
Variable v : cpython.
Variable csv_rows : string -> result (list (result MarketDataPoint)).
Variable default_timer : nat -> float.
Variable asizeof : forall c : strategy_class, instance c -> Z.

(** The loop of [load_market_data_limited]: row [i] is read only while
    [i < limit]. *)
Fixpoint load_rows (rows : list (result MarketDataPoint)) (i limit : Z)
  : result (list MarketDataPoint) :=
  match rows with
  | [] => Ok []
  | row :: rest =>
      if limit <=? i then Ok []
      else
        point <- row ;;
        points <- load_rows rest (i + 1) limit ;;
        Ok (point :: points)
  end.

Definition load_market_data_limited (filename : string) (limit : Z)
  : result (list MarketDataPoint) :=
  rows <- csv_rows filename ;;
  load_rows rows 0 limit.

(** [measure_runtime]; [clock] counts the timer readings taken so far. *)
Definition measure_runtime (strategy_class : strategy_class)
  (data_points : list MarketDataPoint) (window_size : Z) (clock : nat)
  : result (float * nat) :=
  strategy <- construct strategy_class window_size ;;
  let start := default_timer clock in
  _ <- snd (run_strategy strategy_class strategy data_points) ;;
  let end_ := default_timer (S clock) in
  Ok (PrimFloat.sub end_ start, S (S clock)).

Definition measure_memory (strategy_class : strategy_class)
  (data_points : list MarketDataPoint) (window_size : Z) : result float :=
  strategy <- construct strategy_class window_size ;;
  let '(strategy, out) := run_strategy strategy_class strategy data_points in
  _ <- out ;;
  let memory_bytes := asizeof strategy_class strategy in
  megabytes memory_bytes.

(** The loop of [benchmark_all] over the sizes still to run. *)
Fixpoint benchmark_sizes (filepath : string) (window_size : Z)
  (sizes : list Z) (results : list record) (clock : nat)
  : result (list record) :=
  match sizes with
  | [] => Ok results
  | size :: sizes' =>
      data <- load_market_data_limited filepath size ;;
      naive <- measure_runtime (NaiveMovingAverageStrategy_class v) data
                 window_size clock ;;
      let '(naive_time, clock) := naive in
      naive_memory <- measure_memory (NaiveMovingAverageStrategy_class v)
                        data window_size ;;
      let results := results ++
        [[("Strategy", VStr "NaiveMovingAverageStrategy");
          ("ticks", VInt size);
          ("runtime", VFloat naive_time);
          ("memory", VFloat naive_memory)]] in
      windowed <- measure_runtime WindowedMovingAverageStrategy_class data
                    window_size clock ;;
      let '(windowed_time, clock) := windowed in
      windowed_memory <- measure_memory WindowedMovingAverageStrategy_class
                           data window_size ;;
      let results := results ++
        [[("Strategy", VStr "WindowedMovingAverageStrategy");
          ("ticks", VInt size);
          ("runtime", VFloat windowed_time);
          ("memory", VFloat windowed_memory)]] in
      benchmark_sizes filepath window_size sizes' results clock
  end.

Definition benchmark_all (filepath : string) (window_size : Z) (clock : nat)
  : result (list record) :=
  benchmark_sizes filepath window_size [1000; 10000; 100000] [] clock.

End Harness.

(** ** Notions the properties are stated with *)

(** The last [k] elements of a sequence (all of it when it is shorter). *)
Definition last_n {A : Type} (k : Z) (xs : list A) : list A :=
  rev (firstn (Z.to_nat k) (rev xs)).

Definition prices (ticks : list MarketDataPoint) : list float :=
  map price ticks.

Definition tick_of (p : float) : MarketDataPoint :=
  {| timestamp := 0; symbol := "TEST"; price := p |}.

Definition ticks_of (ps : list float) : list MarketDataPoint := map tick_of ps.

Definition fresh_naive (window_size : Z) : NaiveMovingAverageStrategy.t :=
  {| NaiveMovingAverageStrategy.window_size := window_size;
     NaiveMovingAverageStrategy.price_history := [] |}.

Definition fresh_windowed (window_size : Z) : WindowedMovingAverageStrategy.t :=
  {| WindowedMovingAverageStrategy.window_size := window_size;
     WindowedMovingAverageStrategy.window := [];
     WindowedMovingAverageStrategy.running_sum := PrimFloat.zero |}.

(** The running sum after a call: the oldest price leaves it when the
    window is full, then the new price enters. *)
Definition next_sum (k : Z) (l : list float) (s p : float) : float :=
  PrimFloat.add
    (if len l <? k then s
     else PrimFloat.sub s (hd PrimFloat.zero (last_n k l)))
    p.

(** The running sum after the prices [ps] have followed the prices [l]. *)
Fixpoint sum_after (k : Z) (l : list float) (s : float) (ps : list float)
  : float :=
  match ps with
  | [] => s
  | p :: ps' => sum_after k (l ++ [p]) (next_sum k l s p) ps'
  end.

(** The running sum of a windowed strategy is, bit for bit, the [sum] of
    its window. *)
Definition sum_matches (v : cpython) (s : WindowedMovingAverageStrategy.t)
  : bool :=
  PrimFloat.Leibniz.eqb (WindowedMovingAverageStrategy.running_sum s)
    (builtin_sum v (WindowedMovingAverageStrategy.window s)).

(** [sum_matches] holds after each tick of a replay that starts from [s]. *)
Fixpoint sum_matches_along (v : cpython) (s : WindowedMovingAverageStrategy.t)
  (ticks : list MarketDataPoint) : bool :=
  match ticks with
  | [] => true
  | tick :: rest =>
      let s' := fst (WindowedMovingAverageStrategy.generate_signals s tick) in
      sum_matches v s' && sum_matches_along v s' rest
  end.

(** A record with the four fields of a measurement. *)
Definition measurement (r : record) : Prop :=
  exists (strategy : string) (ticks : Z) (runtime memory : float),
    r = [("Strategy", VStr strategy); ("ticks", VInt ticks);
         ("runtime", VFloat runtime); ("memory", VFloat memory)].

Fixpoint lookup (key : string) (r : record) : option value :=
  match r with
  | [] => None
  | (k, x) :: r' => if String.eqb k key then Some x else lookup key r'
  end.

(** The strategy and the size a record was measured for. *)
Definition trial (r : record) : option value * option value :=
  (lookup "Strategy" r, lookup "ticks" r).

(** A row of the CSV file that yields a tick. *)
Definition well_formed_row (row : result MarketDataPoint) : Prop :=
  exists point, row = Ok point.

(** A return value of [generate_signals]: a list with one signal. *)
Definition one_signal (s : list signal) : Prop := exists sig, s = [sig].

(** ** Reading the benchmark results ([reporting.py]) *)

(** [x == strategy] for a value [x] of a record and a string: a number is
    never equal to a string. *)
Definition is_strategy (strategy : string) (x : value) : bool :=
  match x with
  | VStr s => String.eqb s strategy
  | VInt _ | VFloat _ => false
  end.

(** [[r for r in results if r['Strategy'] == strategy]], the first
    statement of [generate_plots] and of [generate_report]; [None] stands
    for the [KeyError] of a record without the key. *)
Fixpoint results_of (strategy : string) (results : list record)
  : option (list record) :=
  match results with
  | [] => Some []
  | r :: rest =>
      match lookup "Strategy" r with
      | None => None
      | Some x =>
          match results_of strategy rest with
          | None => None
          | Some kept => Some (if is_strategy strategy x then r :: kept else kept)
          end
      end
  end.

(** [[r[key] for r in results]]. *)
Fixpoint column (key : string) (results : list record) : option (list value) :=
  match results with
  | [] => Some []
  | r :: rest =>
      match lookup key r with
      | None => None
      | Some x =>
          match column key rest with
          | None => None
          | Some xs => Some (x :: xs)
          end
      end
  end.

(** ** Reading the rows of the CSV file ([data_loader.py]) *)

Module csv.

(** The exceptions of the loader. *)
Inductive exception : Type := KeyError | TypeError | ValueError | OSError.

Inductive outcome (A : Type) : Type :=
| Returned (a : A)
| Raised (e : exception).

Arguments Returned {A} a.
Arguments Raised {A} e.

(** A row as [csv.DictReader] yields it: the cell of each column of the
    header, [None] where the line has fewer cells than the header. *)
Definition row : Type := list (string * option string).

(** [row[key]]. *)
Fixpoint getitem (key : string) (r : row) : outcome (option string) :=
  match r with
  | [] => Raised KeyError
  | (k, cell) :: r' =>
      if String.eqb k key then Returned cell else getitem key r'
  end.

(** [r(arg)]: a dict is not callable. *)
Definition call {A : Type} (r : row) (arg : string) : outcome A :=
  Raised TypeError.

Definition then_ {A B : Type} (o : outcome A) (f : A -> outcome B)
  : outcome B :=
  match o with
  | Returned a => f a
  | Raised e => Raised e
  end.

Section Loader.

(** [datetime.strptime(text, "%Y-%m-%d %H:%M:%S")], [float(text)], and
    the rows [csv.DictReader] reads from a file that [open] has opened. *)
Variable strptime : string -> outcome Z.
Variable float_of_str : string -> outcome float.
Variable read_rows : string -> outcome (list row).

(** [parse_timestamp]: the last six characters are cut off before the
    text is parsed; [None] cannot be sliced. *)
Definition parse_timestamp (timestamp_str : option string) : outcome Z :=
  match timestamp_str with
  | None => Raised TypeError
  | Some s =>
      let clean_str := String.substring 0 (String.length s - 6) s in
      strptime clean_str
  end.

(** The [MarketDataPoint] that [load_market_data] builds from a row.  The
    arguments are evaluated in order: [row['timestamp']] is parsed, then
    [row('symbol')] and [row('price')] call the row. *)
Definition point_of_row (r : row) : outcome MarketDataPoint :=
  then_ (then_ (getitem "timestamp" r) parse_timestamp) (fun t =>
  then_ (call r "symbol") (fun s =>
  then_ (then_ (call r "price") float_of_str) (fun p =>
  Returned {| timestamp := t; symbol := s; price := p |}))).

(** The loop of [load_market_data]. *)
Fixpoint load_points (rows : list row) : outcome (list MarketDataPoint) :=
  match rows with
  | [] => Returned []
  | r :: rest =>
      then_ (point_of_row r) (fun point =>
      then_ (load_points rest) (fun data_points =>
      Returned (point :: data_points)))
  end.

Definition load_market_data (filename : string)
  : outcome (list MarketDataPoint) :=
  then_ (read_rows filename) load_points.

End Loader.

End csv.

(** The float [1.0] as a specification float. *)
Definition SF1 : spec_float := Eval vm_compute in Prim2SF 1%float.

(** [s] is NaN or compares equal to [p]: what the running sum over the
    one-element window [[p]] satisfies. *)
Definition tracks (s p : float) : Prop :=
  Prim2SF s = S754_nan \/ SFcompare (Prim2SF s) (Prim2SF p) = Some Eq.

(** * Properties *)

(** ** Binary64 arithmetic *)

Module FloatFacts.

(** *** Comparison of specification floats *)

Lemma SFcompare_antisym (x y : spec_float) :
  SFcompare y x = option_map CompOpp (SFcompare x y).
Proof.
  destruct x as [sx|sx| |sx mx ex], y as [sy|sy| |sy my ey];
    try destruct sx; try destruct sy; simpl; try reflexivity.
  all: rewrite (Z.compare_antisym ex ey); destruct (ex ?= ey); simpl;
    try reflexivity.
  all: rewrite (Pos.compare_cont_antisym mx my Eq); simpl;
    destruct (Pos.compare_cont Eq mx my); reflexivity.
Qed.

Lemma SFcompare_refl (x : spec_float) :
  x <> S754_nan -> SFcompare x x = Some Eq.
Proof.
  destruct x as [s|s| |s m e]; simpl; intros Hx;
    try destruct s; try reflexivity; try (now elim Hx).
  all: rewrite Z.compare_refl;
    change (Pos.compare_cont Eq m m) with (m ?= m)%positive;
    rewrite Pos.compare_refl; reflexivity.
Qed.

(** Two floats that compare equal are two zeros or the same float. *)
Lemma SFcompare_Eq_inv (x y : spec_float) :
  SFcompare x y = Some Eq ->
  (exists sx sy, x = S754_zero sx /\ y = S754_zero sy) \/
  (x = y /\ x <> S754_nan).
Proof.
  destruct x as [sx|sx| |sx mx ex], y as [sy|sy| |sy my ey]; simpl;
    try discriminate.
  - intros _. left. eauto.
  - destruct sy; discriminate.
  - destruct sy; discriminate.
  - destruct sx; discriminate.
  - destruct sx, sy; try discriminate; intros _; right; split; congruence.
  - destruct sx; discriminate.
  - destruct sx; discriminate.
  - destruct sy; discriminate.
  - destruct sx, sy; try discriminate;
      destruct (ex ?= ey) eqn:He; try discriminate;
      apply Z.compare_eq in He; subst ey;
      destruct (Pos.compare_cont Eq mx my) eqn:Hm; try discriminate;
      apply (Pos.compare_eq mx my) in Hm; subst my;
      intros _; right; split; congruence.
Qed.

(** *** Division by one is exact *)

(** Rounding a mantissa that is already in canonical position changes
    nothing. *)
Lemma shr_fexp_canonical (m : positive) (e : Z) :
  canonical_mantissa prec emax m e = true ->
  shr_fexp prec emax (Zpos m) e loc_Exact =
  ({| shr_m := Zpos m; shr_r := false; shr_s := false |}, e).
Proof.
  unfold canonical_mantissa, shr_fexp. intros Hc. apply Z.eqb_eq in Hc.
  simpl Zdigits2. rewrite Hc, Z.sub_diag. reflexivity.
Qed.

Lemma binary_round_aux_canonical (s : bool) (m : positive) (e : Z) :
  bounded prec emax m e = true ->
  binary_round_aux prec emax s (Zpos m) e loc_Exact = S754_finite s m e.
Proof.
  unfold bounded. intros Hb. apply andb_prop in Hb. destruct Hb as [Hc He].
  unfold binary_round_aux. rewrite (shr_fexp_canonical _ _ Hc).
  cbn [shr_m loc_of_shr_record round_nearest_even].
  rewrite (shr_fexp_canonical _ _ Hc). cbn [shr_m].
  rewrite He. reflexivity.
Qed.

Lemma div_eucl_exact (a b : Z) : 0 < b -> Z.div_eucl (a * b) b = (a, 0).
Proof.
  intros Hb.
  generalize (Z.div_eucl_eq (a * b) b) (Z.mod_pos_bound (a * b) b Hb).
  unfold Z.modulo. destruct (Z.div_eucl (a * b) b) as [q r]. intros Heq Hr.
  assert (Hb0 : b <> 0) by lia. specialize (Heq Hb0).
  assert (q = a) by nia. subst q. f_equal. lia.
Qed.

(** [x / 1.0] is [x].  A finite [x] with the least exponent keeps its
    mantissa through the division; any other finite [x] has a 53-bit
    mantissa, which the division doubles and the rounding halves. *)
Lemma SF64div_one (x : spec_float) :
  valid_binary x = true -> SF64div x SF1 = x.
Proof.
  destruct x as [s|s| |s m e]; simpl; intros Hv; try reflexivity.
  - destruct s; reflexivity.
  - destruct s; reflexivity.
  - pose proof Hv as Hb.
    unfold bounded, canonical_mantissa in Hv.
    apply andb_prop in Hv. destruct Hv as [Hc He].
    apply Z.eqb_eq in Hc. apply Z.leb_le in He.
    unfold SF64div, SFdiv, SF1, SFdiv_core_binary.
    unfold fexp, SpecFloat.emin, prec, emax in Hc, He |- *.
    change (Zdigits2 4503599627370496) with 53.
    change (Zdigits2 (Z.pos m)) with (Z.pos (digits2_pos m)).
    rewrite xorb_false_r.
    destruct (Z.eq_dec e (-1074)) as [->|Hne].
    + replace (Z.min
                 (Z.max (Z.pos (digits2_pos m) + -1074 - (53 + -52) - 53)
                    (3 - 1024 - 53))
                 (-1074 - -52))
        with (-1074) by lia.
      change (-1074 - -52 - -1074) with 52.
      rewrite Z.shiftl_mul_pow2 by lia.
      change (2 ^ 52) with 4503599627370496.
      rewrite div_eucl_exact by lia.
      change (new_location 4503599627370496 0) with loc_Exact.
      apply binary_round_aux_canonical. exact Hb.
    + assert (Hd : Z.pos (digits2_pos m) = 53) by lia.
      replace (Z.min
                 (Z.max (Z.pos (digits2_pos m) + e - (53 + -52) - 53)
                    (3 - 1024 - 53))
                 (e - -52))
        with (e - 1) by lia.
      replace (e - -52 - (e - 1)) with 53 by lia.
      replace (Z.shiftl (Z.pos m) 53) with (Z.pos m~0 * 4503599627370496)
        by (rewrite Z.shiftl_mul_pow2 by lia; lia).
      rewrite div_eucl_exact by lia.
      change (new_location 4503599627370496 0) with loc_Exact.
      unfold binary_round_aux.
      assert (Hs : shr_fexp 53 1024 (Z.pos m~0) (e - 1) loc_Exact =
                   ({| shr_m := Z.pos m; shr_r := false; shr_s := false |}, e)).
      { unfold shr_fexp, fexp, SpecFloat.emin. cbn [Zdigits2 digits2_pos].
        rewrite Pos2Z.inj_succ, Hd.
        replace (Z.max (Z.succ 53 + (e - 1) - 53) (3 - 1024 - 53) - (e - 1))
          with 1 by lia.
        cbn. f_equal. lia. }
      rewrite Hs. cbn [shr_m loc_of_shr_record round_nearest_even].
      unfold bounded in Hb. apply andb_prop in Hb. destruct Hb as [Hc' He'].
      change 53 with prec. change 1024 with emax.
      rewrite (shr_fexp_canonical _ _ Hc'). cbn [shr_m].
      rewrite He'. reflexivity.
Qed.

(** *** Comparison of binary64 floats *)



(** *** A running sum over a one-element window *)

Lemma tracks_not_ltb (s p : float) :
  tracks s p -> PrimFloat.ltb s p = false /\ PrimFloat.ltb p s = false.
Proof.
  rewrite !ltb_spec. unfold SFltb.
  rewrite (SFcompare_antisym (Prim2SF s) (Prim2SF p)).
  intros [Hn | He].
  - rewrite Hn. simpl. split; reflexivity.
  - rewrite He. simpl. split; reflexivity.
Qed.

(** A zero plus [y] is NaN or compares equal to [y]. *)
Lemma SFadd_zero_l (sz : bool) (y : spec_float) :
  SF64add (S754_zero sz) y = S754_nan \/
  SFcompare (SF64add (S754_zero sz) y) y = Some Eq.
Proof.
  destruct y as [s|s| |s m e].
  - right. destruct sz, s; reflexivity.
  - right. destruct s; reflexivity.
  - left. reflexivity.
  - right. apply (SFcompare_refl (S754_finite s m e)). discriminate.
Qed.

Lemma tracks_add_zero (p : float) :
  tracks (PrimFloat.add PrimFloat.zero p) p.
Proof.
  unfold tracks. rewrite add_spec.
  change (Prim2SF PrimFloat.zero) with (S754_zero false).
  apply SFadd_zero_l.
Qed.

(** The difference of two floats that compare equal is a zero, or NaN
    when they are infinite. *)
Lemma SFsub_same (x y : spec_float) :
  SFcompare x y = Some Eq ->
  SF64sub x y = S754_nan \/ exists sz, SF64sub x y = S754_zero sz.
Proof.
  intros H. apply SFcompare_Eq_inv in H.
  destruct H as [(sx & sy & -> & ->) | [<- Hx]].
  - right. destruct sx, sy; simpl; eauto.
  - destruct x as [s|s| |s m e]; simpl.
    + right. destruct s; eauto.
    + left. destruct s; reflexivity.
    + left. reflexivity.
    + right. exists false. rewrite Z.sub_diag. reflexivity.
Qed.

(** Evicting the one price of the window and adding the next price. *)
Lemma tracks_evict (s w p : float) :
  tracks s w -> tracks (PrimFloat.add (PrimFloat.sub s w) p) p.
Proof.
  unfold tracks. rewrite add_spec, sub_spec. intros [Hn | He].
  - left. rewrite Hn. reflexivity.
  - destruct (SFsub_same _ _ He) as [-> | [sz ->]].
    + left. reflexivity.
    + apply SFadd_zero_l.
Qed.

Lemma tracks_div_one (s p : float) :
  tracks s p -> tracks (PrimFloat.div s PrimFloat.one) p.
Proof.
  unfold tracks. rewrite div_spec.
  change (Prim2SF PrimFloat.one) with SF1.
  intros [Hn | He].
  - left. rewrite Hn. reflexivity.
  - right. rewrite SF64div_one by apply Prim2SF_valid. exact He.
Qed.

Lemma tracks_hold (s p : float) :
  tracks s p ->
  compare_to_average p (PrimFloat.div s PrimFloat.one) = [Hold].
Proof.
  intros H. apply tracks_div_one, tracks_not_ltb in H. destruct H as [H1 H2].
  unfold compare_to_average. rewrite H1, H2. reflexivity.
Qed.

End FloatFacts.

(** ** Sequences *)

Lemma len_app {A : Type} (xs ys : list A) : len (xs ++ ys) = len xs + len ys.
Proof. unfold len. rewrite length_app. lia. Qed.

Lemma len_nonneg {A : Type} (xs : list A) : 0 <= len xs.
Proof. unfold len. lia. Qed.

Lemma last_n_skipn {A : Type} (k : Z) (xs : list A) :
  last_n k xs = skipn (List.length xs - Z.to_nat k) xs.
Proof. unfold last_n. rewrite firstn_rev, rev_involutive. reflexivity. Qed.

Lemma len_last_n {A : Type} (k : Z) (xs : list A) :
  0 <= k -> len (last_n k xs) = Z.min k (len xs).
Proof. intros Hk. rewrite last_n_skipn. unfold len. rewrite length_skipn. lia. Qed.

Lemma last_n_nil {A : Type} (k : Z) : last_n k (@nil A) = [].
Proof. rewrite last_n_skipn. apply skipn_nil. Qed.

Lemma last_n_short {A : Type} (k : Z) (xs : list A) :
  len xs <= k -> last_n k xs = xs.
Proof.
  intros Hk. rewrite last_n_skipn.
  replace (List.length xs - Z.to_nat k)%nat with 0%nat by (unfold len in Hk; lia).
  reflexivity.
Qed.

(** The slice [xs[-k:]] of the naive strategy is the last [k] elements. *)
Lemma slice_from_last {A : Type} (k : Z) (xs : list A) :
  1 <= k -> slice_from xs (- k) = last_n k xs.
Proof.
  intros Hk. unfold slice_from. rewrite last_n_skipn.
  replace (- k <? 0) with true by (symmetry; apply Z.ltb_lt; lia).
  f_equal. unfold len. lia.
Qed.

Lemma tl_skipn {A : Type} (j : nat) (xs : list A) :
  tl (skipn j xs) = skipn (S j) xs.
Proof.
  revert xs. induction j as [|j IH]; intros [|x xs]; try reflexivity.
  apply IH.
Qed.

Lemma tl_app_nonempty {A : Type} (xs ys : list A) :
  xs <> [] -> tl (xs ++ ys) = tl xs ++ ys.
Proof. destruct xs; [congruence | reflexivity]. Qed.

(** Appending to a deque that holds the last [k] prices leaves it holding
    the last [k] prices. *)
Lemma append_last_n (k : Z) (xs : list float) (x : float) :
  1 <= k -> deque.append k (last_n k xs) x = last_n k (xs ++ [x]).
Proof.
  intros Hk. unfold deque.append.
  rewrite len_app, len_last_n by lia. change (len [x]) with 1.
  rewrite !last_n_skipn, length_app. cbn [List.length].
  destruct (k <? Z.min k (len xs) + 1) eqn:Hfull.
  - apply Z.ltb_lt in Hfull. unfold len in Hfull.
    rewrite tl_app_nonempty.
    + rewrite tl_skipn, skipn_app.
      replace (S (List.length xs - Z.to_nat k)) with
        (List.length xs + 1 - Z.to_nat k)%nat by lia.
      replace (List.length xs + 1 - Z.to_nat k - List.length xs)%nat
        with 0%nat by lia.
      reflexivity.
    + intros Hnil. apply (f_equal (@List.length float)) in Hnil.
      rewrite length_skipn in Hnil. cbn in Hnil. lia.
  - apply Z.ltb_ge in Hfull. unfold len in Hfull.
    replace (List.length xs - Z.to_nat k)%nat with 0%nat by lia.
    replace (List.length xs + 1 - Z.to_nat k)%nat with 0%nat by lia.
    reflexivity.
Qed.

Lemma last_n_nonempty {A : Type} (k : Z) (xs : list A) :
  1 <= k -> xs <> [] -> last_n k xs <> [].
Proof.
  intros Hk Hxs Hnil. apply (f_equal len) in Hnil.
  rewrite len_last_n in Hnil by lia.
  destruct xs; [congruence|]. unfold len in Hnil. cbn in Hnil. lia.
Qed.

Lemma sum_left_snoc (xs : list float) (x : float) :
  sum_left (xs ++ [x]) = PrimFloat.add (sum_left xs) x.
Proof. unfold sum_left. rewrite fold_left_app. reflexivity. Qed.

(** The [sum] of a one-element list is the same in every interpreter. *)
Lemma builtin_sum_singleton (v : cpython) (p : float) :
  builtin_sum v [p] = PrimFloat.add PrimFloat.zero p.
Proof. destruct v; reflexivity. Qed.

(** ** One call of [generate_signals] *)

Lemma float_of_int_small (k : Z) :
  0 <= k < 2 ^ 63 ->
  float_of_int k = Ok (PrimFloat.of_uint63 (Uint63.of_Z k)).
Proof.
  intros Hk. unfold float_of_int.
  replace (Z.abs k <? 2 ^ 63) with true by (symmetry; apply Z.ltb_lt; lia).
  replace (k <? 0) with false by (symmetry; apply Z.ltb_ge; lia).
  rewrite Z.abs_eq by lia. reflexivity.
Qed.

Lemma float_truediv_small (x : float) (k : Z) :
  1 <= k < 2 ^ 63 ->
  float_truediv x k = Ok (PrimFloat.div x (PrimFloat.of_uint63 (Uint63.of_Z k))).
Proof.
  intros Hk. unfold float_truediv. rewrite float_of_int_small by lia.
  cbn [bind]. replace (k =? 0) with false by (symmetry; apply Z.eqb_neq; lia).
  reflexivity.
Qed.

Lemma mean_of_nonempty (v : cpython) (window : list float) (k : Z) :
  window <> [] -> mean_of v window k = float_truediv (builtin_sum v window) k.
Proof. destruct window; [congruence | reflexivity]. Qed.

Lemma naive_generate_signals (v : cpython) (k : Z) (l : list float)
  (tick : MarketDataPoint) :
  NaiveMovingAverageStrategy.generate_signals v
    {| NaiveMovingAverageStrategy.window_size := k;
       NaiveMovingAverageStrategy.price_history := l |} tick =
  ({| NaiveMovingAverageStrategy.window_size := k;
      NaiveMovingAverageStrategy.price_history := l ++ [price tick] |},
   if len l + 1 <? k then Ok [Hold]
   else
     average <- mean_of v (slice_from (l ++ [price tick]) (- k)) k ;;
     Ok (compare_to_average (price tick) average)).
Proof.
  unfold NaiveMovingAverageStrategy.generate_signals.
  cbn [NaiveMovingAverageStrategy.window_size
       NaiveMovingAverageStrategy.price_history].
  rewrite len_app. change (len [price tick]) with 1.
  destruct (len l + 1 <? k); reflexivity.
Qed.

(** After the warm-up the naive strategy compares the price with the mean
    of the last [k] prices. *)
Lemma naive_mean (v : cpython) (k : Z) (l : list float) (p : float) :
  1 <= k ->
  mean_of v (slice_from (l ++ [p]) (- k)) k =
  float_truediv (builtin_sum v (last_n k (l ++ [p]))) k.
Proof.
  intros Hk. rewrite slice_from_last by exact Hk.
  apply mean_of_nonempty, last_n_nonempty; [exact Hk|].
  destruct l; discriminate.
Qed.

Lemma windowed_generate_signals (k : Z) (l : list float) (s : float)
  (tick : MarketDataPoint) :
  1 <= k ->
  WindowedMovingAverageStrategy.generate_signals
    {| WindowedMovingAverageStrategy.window_size := k;
       WindowedMovingAverageStrategy.window := last_n k l;
       WindowedMovingAverageStrategy.running_sum := s |} tick =
  ({| WindowedMovingAverageStrategy.window_size := k;
      WindowedMovingAverageStrategy.window := last_n k (l ++ [price tick]);
      WindowedMovingAverageStrategy.running_sum :=
        next_sum k l s (price tick) |},
   if len l + 1 <? k then Ok [Hold]
   else
     average <- float_truediv (next_sum k l s (price tick)) k ;;
     Ok (compare_to_average (price tick) average)).
Proof.
  intros Hk. unfold WindowedMovingAverageStrategy.generate_signals, next_sum.
  cbn [WindowedMovingAverageStrategy.window_size
       WindowedMovingAverageStrategy.window
       WindowedMovingAverageStrategy.running_sum].
  rewrite append_last_n by exact Hk.
  rewrite !len_last_n, len_app by lia. change (len [price tick]) with 1.
  pose proof (len_nonneg l) as Hl.
  destruct (len l <? k) eqn:Hfill.
  - apply Z.ltb_lt in Hfill.
    replace (Z.min k (len l) =? k) with false
      by (symmetry; apply Z.eqb_neq; lia).
    replace (Z.min k (len l + 1) <? k) with (len l + 1 <? k)
      by (destruct (len l + 1 <? k) eqn:E; symmetry;
          [apply Z.ltb_lt; apply Z.ltb_lt in E | apply Z.ltb_ge; apply Z.ltb_ge in E];
          lia).
    cbn [bind]. destruct (len l + 1 <? k); reflexivity.
  - apply Z.ltb_ge in Hfill.
    replace (Z.min k (len l) =? k) with true
      by (symmetry; apply Z.eqb_eq; lia).
    replace (Z.min k (len l + 1) <? k) with false
      by (symmetry; apply Z.ltb_ge; lia).
    replace (len l + 1 <? k) with false by (symmetry; apply Z.ltb_ge; lia).
    destruct (last_n k l) as [|x w] eqn:Hw.
    + exfalso. apply (last_n_nonempty k l); [exact Hk | | exact Hw].
      intros ->. cbn in Hfill. lia.
    + reflexivity.
Qed.

(** ** The state a replay reaches *)

Lemma naive_init (k : Z) :
  NaiveMovingAverageStrategy.__init__ k = Ok (fresh_naive k).
Proof. reflexivity. Qed.

Lemma windowed_init (k : Z) :
  0 <= k -> WindowedMovingAverageStrategy.__init__ k = Ok (fresh_windowed k).
Proof.
  intros Hk. unfold WindowedMovingAverageStrategy.__init__, deque.new.
  replace (k <? 0) with false by (symmetry; apply Z.ltb_ge; lia).
  reflexivity.
Qed.

Lemma state_after_cons (c : strategy_class) (s : instance c)
  (tick : MarketDataPoint) (ticks : list MarketDataPoint) :
  state_after c s (tick :: ticks) =
  state_after c (fst (generate_signals c s tick)) ticks.
Proof. reflexivity. Qed.

Lemma naive_state_after (v : cpython) (k : Z) (l : list float)
  (ticks : list MarketDataPoint) :
  state_after (NaiveMovingAverageStrategy_class v)
    {| NaiveMovingAverageStrategy.window_size := k;
       NaiveMovingAverageStrategy.price_history := l |} ticks =
  {| NaiveMovingAverageStrategy.window_size := k;
     NaiveMovingAverageStrategy.price_history := l ++ prices ticks |}.
Proof.
  revert l. induction ticks as [|tick ticks IH]; intros l.
  - cbn. rewrite app_nil_r. reflexivity.
  - rewrite state_after_cons.
    cbn [generate_signals NaiveMovingAverageStrategy_class].
    rewrite naive_generate_signals. cbn [fst]. rewrite IH.
    cbn [prices map]. rewrite <- app_assoc. reflexivity.
Qed.

Lemma windowed_state_after (k : Z) (l : list float) (s : float)
  (ticks : list MarketDataPoint) :
  1 <= k ->
  state_after WindowedMovingAverageStrategy_class
    {| WindowedMovingAverageStrategy.window_size := k;
       WindowedMovingAverageStrategy.window := last_n k l;
       WindowedMovingAverageStrategy.running_sum := s |} ticks =
  {| WindowedMovingAverageStrategy.window_size := k;
     WindowedMovingAverageStrategy.window := last_n k (l ++ prices ticks);
     WindowedMovingAverageStrategy.running_sum := sum_after k l s (prices ticks) |}.
Proof.
  intros Hk. revert l s. induction ticks as [|tick ticks IH]; intros l s.
  - cbn. rewrite app_nil_r. reflexivity.
  - rewrite state_after_cons.
    cbn [generate_signals WindowedMovingAverageStrategy_class].
    rewrite windowed_generate_signals by exact Hk. cbn [fst]. rewrite IH.
    cbn [prices map sum_after]. rewrite <- app_assoc. reflexivity.
Qed.

Lemma naive_after_fresh (v : cpython) (k : Z) (ticks : list MarketDataPoint) :
  naive_after v k ticks =
  Ok {| NaiveMovingAverageStrategy.window_size := k;
        NaiveMovingAverageStrategy.price_history := prices ticks |}.
Proof.
  unfold naive_after, instance_after.
  cbn [construct NaiveMovingAverageStrategy_class].
  rewrite naive_init. cbn [bind]. unfold fresh_naive.
  rewrite naive_state_after. reflexivity.
Qed.

Lemma windowed_after_fresh (k : Z) (ticks : list MarketDataPoint) :
  1 <= k ->
  windowed_after k ticks =
  Ok {| WindowedMovingAverageStrategy.window_size := k;
        WindowedMovingAverageStrategy.window := last_n k (prices ticks);
        WindowedMovingAverageStrategy.running_sum :=
          sum_after k [] PrimFloat.zero (prices ticks) |}.
Proof.
  intros Hk. unfold windowed_after, instance_after.
  cbn [construct WindowedMovingAverageStrategy_class].
  rewrite windowed_init by lia. cbn [bind]. unfold fresh_windowed.
  pose proof (windowed_state_after k [] PrimFloat.zero ticks Hk) as Hs.
  rewrite last_n_nil in Hs. rewrite Hs. reflexivity.
Qed.

Lemma sum_after_snoc (k : Z) (l : list float) (s : float) (ps : list float)
  (p : float) :
  sum_after k l s (ps ++ [p]) = next_sum k (l ++ ps) (sum_after k l s ps) p.
Proof.
  revert l s. induction ps as [|q ps IH]; intros l s.
  - cbn. rewrite app_nil_r. reflexivity.
  - cbn [sum_after app]. rewrite IH, <- app_assoc. reflexivity.
Qed.


Lemma len_prices (ticks : list MarketDataPoint) : len (prices ticks) = len ticks.
Proof. unfold prices, len. rewrite length_map. reflexivity. Qed.

Lemma naive_call_eq (v : cpython) (k : Z) (pre : list MarketDataPoint)
  (tick : MarketDataPoint) :
  naive_call v k pre tick =
  if len pre + 1 <? k then Ok [Hold]
  else
    average <- mean_of v (slice_from (prices pre ++ [price tick]) (- k)) k ;;
    Ok (compare_to_average (price tick) average).
Proof.
  unfold naive_call, call_after. fold (naive_after v).
  rewrite naive_after_fresh. cbn [bind].
  cbn [generate_signals NaiveMovingAverageStrategy_class].
  rewrite naive_generate_signals. cbn [snd].
  rewrite len_prices. reflexivity.
Qed.

Lemma windowed_call_eq (k : Z) (pre : list MarketDataPoint)
  (tick : MarketDataPoint) :
  1 <= k ->
  windowed_call k pre tick =
  if len pre + 1 <? k then Ok [Hold]
  else
    average <- float_truediv
                 (sum_after k [] PrimFloat.zero (prices (pre ++ [tick]))) k ;;
    Ok (compare_to_average (price tick) average).
Proof.
  intros Hk. unfold windowed_call, call_after. fold windowed_after.
  rewrite windowed_after_fresh by exact Hk. cbn [bind].
  cbn [generate_signals WindowedMovingAverageStrategy_class].
  rewrite windowed_generate_signals by exact Hk. cbn [snd].
  rewrite len_prices.
  unfold prices. rewrite map_app. cbn [map].
  rewrite sum_after_snoc. reflexivity.
Qed.

(** ** Retained state *)

(** C5.  After [n] ticks with window size [k >= 1] the window of the
    windowed strategy holds exactly [min(n, k)] prices and the price
    history of the naive strategy holds exactly [n]. *)
Theorem retained_counts (v : cpython) (k : Z) (ticks : list MarketDataPoint) :
  1 <= k ->
  (exists s, windowed_after k ticks = Ok s /\
             len (WindowedMovingAverageStrategy.window s) = Z.min (len ticks) k) /\
  (exists s, naive_after v k ticks = Ok s /\
             len (NaiveMovingAverageStrategy.price_history s) = len ticks).
Proof.
  intros Hk. split.
  - eexists. split; [apply windowed_after_fresh; exact Hk|].
    cbn [WindowedMovingAverageStrategy.window].
    rewrite len_last_n, len_prices by lia. lia.
  - eexists. split; [apply naive_after_fresh|].
    cbn [NaiveMovingAverageStrategy.price_history].
    apply len_prices.
Qed.

Lemma retained_counts_witness :
  (exists s, windowed_after 10 (ticks_of [1; 2; 3]%float) = Ok s /\
             len (WindowedMovingAverageStrategy.window s) = 3) /\
  (exists s, naive_after From_3_12 10 (ticks_of [1; 2; 3]%float) = Ok s /\
             len (NaiveMovingAverageStrategy.price_history s) = 3).
Proof.
  apply (retained_counts From_3_12 10 (ticks_of [1; 2; 3]%float)). lia.
Defined.

(** The check of [test_memory]: after the prices 0 to 99 with window size
    10 the history holds 100 prices and the window 10. *)
Lemma test_memory (v : cpython) :
  (exists s,
      windowed_after 10
        (ticks_of (map (fun i => PrimFloat.of_uint63 (Uint63.of_Z (Z.of_nat i)))
                     (seq 0 100))) = Ok s /\
      len (WindowedMovingAverageStrategy.window s) = 10) /\
  (exists s,
      naive_after v 10
        (ticks_of (map (fun i => PrimFloat.of_uint63 (Uint63.of_Z (Z.of_nat i)))
                     (seq 0 100))) = Ok s /\
      len (NaiveMovingAverageStrategy.price_history s) = 100).
Proof.
  split; eexists; (split; [vm_compute; reflexivity|]); reflexivity.
Qed.

(** ** Warm-up *)

(** C3.  With window size [k >= 1] both strategies return [Hold] for each
    of the first [k - 1] ticks, whatever the prices. *)
Theorem warm_up_hold (v : cpython) (k : Z) (pre : list MarketDataPoint)
  (tick : MarketDataPoint) :
  1 <= k ->
  len pre + 1 <= k - 1 ->
  naive_call v k pre tick = Ok [Hold] /\ windowed_call k pre tick = Ok [Hold].
Proof.
  intros Hk Hpos.
  rewrite naive_call_eq, windowed_call_eq by exact Hk.
  replace (len pre + 1 <? k) with true by (symmetry; apply Z.ltb_lt; lia).
  split; reflexivity.
Qed.

Lemma warm_up_hold_witness :
  naive_call Before_3_12 3 (ticks_of [7]%float) (tick_of 1000) = Ok [Hold] /\
  windowed_call 3 (ticks_of [7]%float) (tick_of 1000) = Ok [Hold].
Proof.
  apply (warm_up_hold Before_3_12 3 (ticks_of [7]%float) (tick_of 1000));
    cbn; lia.
Defined.

(** ** The running sum *)




(** ** Equivalence of the two strategies *)

Lemma sum_matches_true (v : cpython) (s : WindowedMovingAverageStrategy.t) :
  sum_matches v s = true <->
  WindowedMovingAverageStrategy.running_sum s =
  builtin_sum v (WindowedMovingAverageStrategy.window s).
Proof. unfold sum_matches. apply FloatAxioms.Leibniz.eqb_spec. Qed.

Lemma signals_agree_from (v : cpython) (k : Z) (rest : list MarketDataPoint) :
  1 <= k ->
  forall (l : list float) (s : float),
    sum_matches_along v
      {| WindowedMovingAverageStrategy.window_size := k;
         WindowedMovingAverageStrategy.window := last_n k l;
         WindowedMovingAverageStrategy.running_sum := s |} rest = true ->
    signals (NaiveMovingAverageStrategy_class v)
      {| NaiveMovingAverageStrategy.window_size := k;
         NaiveMovingAverageStrategy.price_history := l |} rest =
    signals WindowedMovingAverageStrategy_class
      {| WindowedMovingAverageStrategy.window_size := k;
         WindowedMovingAverageStrategy.window := last_n k l;
         WindowedMovingAverageStrategy.running_sum := s |} rest.
Proof.
  intros Hk. induction rest as [|tick rest IH]; intros l s Hsum.
  - reflexivity.
  - cbn [signals generate_signals NaiveMovingAverageStrategy_class
         WindowedMovingAverageStrategy_class].
    cbn [sum_matches_along] in Hsum.
    rewrite windowed_generate_signals in Hsum |- * by exact Hk.
    rewrite naive_generate_signals.
    cbn [fst] in Hsum. apply andb_prop in Hsum. destruct Hsum as [Hs Hrest].
    apply sum_matches_true in Hs.
    cbn [WindowedMovingAverageStrategy.window
         WindowedMovingAverageStrategy.running_sum] in Hs.
    rewrite (IH _ _ Hrest).
    destruct (len l + 1 <? k); [reflexivity|].
    rewrite naive_mean by exact Hk. rewrite Hs. reflexivity.
Qed.




(** [test_window_sizes]: with the window sizes 1 to 10 over the prices 100
    to 149 the running sum matches after every tick and the signals are
    the same. *)
Lemma test_window_sizes (v : cpython) (k : Z) :
  1 <= k <= 10 ->
  sum_matches_along v (fresh_windowed k)
    (ticks_of (map (fun i => PrimFloat.of_uint63 (Uint63.of_Z (Z.of_nat i)))
                 (seq 100 50))) = true /\
  naive_signals v k
    (ticks_of (map (fun i => PrimFloat.of_uint63 (Uint63.of_Z (Z.of_nat i)))
                 (seq 100 50))) =
  windowed_signals k
    (ticks_of (map (fun i => PrimFloat.of_uint63 (Uint63.of_Z (Z.of_nat i)))
                 (seq 100 50))).
Proof.
  intros Hk.
  assert (Hcases : k = 1 \/ k = 2 \/ k = 3 \/ k = 4 \/ k = 5 \/
                   k = 6 \/ k = 7 \/ k = 8 \/ k = 9 \/ k = 10) by lia.
  destruct v;
    repeat (destruct Hcases as [-> | Hcases];
            [split; vm_compute; reflexivity|]);
    subst k; split; vm_compute; reflexivity.
Qed.

(** ** Signals depend on prices only *)

Lemma naive_price_only (v : cpython) (s : NaiveMovingAverageStrategy.t)
  (t1 t2 : MarketDataPoint) :
  price t1 = price t2 ->
  NaiveMovingAverageStrategy.generate_signals v s t1 =
  NaiveMovingAverageStrategy.generate_signals v s t2.
Proof.
  intros Hp. unfold NaiveMovingAverageStrategy.generate_signals.
  rewrite Hp. reflexivity.
Qed.

Lemma windowed_price_only (s : WindowedMovingAverageStrategy.t)
  (t1 t2 : MarketDataPoint) :
  price t1 = price t2 ->
  WindowedMovingAverageStrategy.generate_signals s t1 =
  WindowedMovingAverageStrategy.generate_signals s t2.
Proof.
  intros Hp. unfold WindowedMovingAverageStrategy.generate_signals.
  rewrite Hp. reflexivity.
Qed.

Lemma signals_price_only (c : strategy_class) :
  (forall (s : instance c) (t1 t2 : MarketDataPoint),
      price t1 = price t2 ->
      generate_signals c s t1 = generate_signals c s t2) ->
  forall (ticks1 ticks2 : list MarketDataPoint) (s : instance c),
    prices ticks1 = prices ticks2 ->
    signals c s ticks1 = signals c s ticks2.
Proof.
  intros Hstep. induction ticks1 as [|t1 ticks1 IH]; intros [|t2 ticks2] s Hp;
    try discriminate; [reflexivity|].
  cbn [prices map] in Hp. injection Hp as Hhd Htl.
  cbn [signals]. rewrite (Hstep s t1 t2 Hhd).
  destruct (generate_signals c s t2) as [s' out].
  rewrite (IH ticks2 s' Htl). reflexivity.
Qed.

(** C9.  The signals of either strategy are a function of the window size
    and of the prices of the ticks: two tick sequences with the same
    prices, whatever their timestamps and symbols, get the same signals. *)
Theorem signals_depend_on_prices_only (v : cpython) (k : Z)
  (ticks1 ticks2 : list MarketDataPoint) :
  prices ticks1 = prices ticks2 ->
  naive_signals v k ticks1 = naive_signals v k ticks2 /\
  windowed_signals k ticks1 = windowed_signals k ticks2.
Proof.
  intros Hp. unfold naive_signals, windowed_signals, signals_of. split.
  - destruct (construct (NaiveMovingAverageStrategy_class v) k) as [s|e];
      [|reflexivity].
    cbn [bind]. apply signals_price_only; [|exact Hp].
    intros. apply naive_price_only. assumption.
  - destruct (construct WindowedMovingAverageStrategy_class k) as [s|e];
      [|reflexivity].
    cbn [bind]. apply signals_price_only; [|exact Hp].
    intros. apply windowed_price_only. assumption.
Qed.

Lemma signals_depend_on_prices_only_witness :
  naive_signals From_3_12 2
    [{| timestamp := 1; symbol := "AAPL"; price := 100 |};
     {| timestamp := 2; symbol := "AAPL"; price := 101 |}] =
  naive_signals From_3_12 2
    [{| timestamp := 50; symbol := "MSFT"; price := 100 |};
     {| timestamp := 40; symbol := "TEST"; price := 101 |}] /\
  windowed_signals 2
    [{| timestamp := 1; symbol := "AAPL"; price := 100 |};
     {| timestamp := 2; symbol := "AAPL"; price := 101 |}] =
  windowed_signals 2
    [{| timestamp := 50; symbol := "MSFT"; price := 100 |};
     {| timestamp := 40; symbol := "TEST"; price := 101 |}].
Proof.
  apply (signals_depend_on_prices_only From_3_12 2
    [{| timestamp := 1; symbol := "AAPL"; price := 100 |};
     {| timestamp := 2; symbol := "AAPL"; price := 101 |}]
    [{| timestamp := 50; symbol := "MSFT"; price := 100 |};
     {| timestamp := 40; symbol := "TEST"; price := 101 |}]).
  reflexivity.
Defined.

(** ** Construction *)



(** ** Window sizes 0 and 1 *)

Lemma float_truediv_one (x : float) :
  float_truediv x 1 = Ok (PrimFloat.div x PrimFloat.one).
Proof. reflexivity. Qed.

Lemma last_n_one_snoc {A : Type} (l : list A) (w : A) :
  last_n 1 (l ++ [w]) = [w].
Proof. unfold last_n. rewrite rev_app_distr. reflexivity. Qed.

Lemma compare_to_average_signal (p average : float) :
  exists sig, compare_to_average p average = [sig].
Proof.
  unfold compare_to_average.
  destruct (PrimFloat.ltb average p); [eauto|].
  destruct (PrimFloat.ltb p average); eauto.
Qed.

Lemma windowed_zero_raises (tick : MarketDataPoint) :
  WindowedMovingAverageStrategy.generate_signals (fresh_windowed 0) tick =
  (fresh_windowed 0, Raise IndexError).
Proof. reflexivity. Qed.

Lemma windowed_zero_state (ticks : list MarketDataPoint) :
  state_after WindowedMovingAverageStrategy_class (fresh_windowed 0) ticks =
  fresh_windowed 0.
Proof.
  induction ticks as [|tick ticks IH]; [reflexivity|].
  rewrite state_after_cons.
  cbn [generate_signals WindowedMovingAverageStrategy_class].
  rewrite windowed_zero_raises. exact IH.
Qed.

(** C6, as the code has it.  With window size 1 every call of the windowed
    strategy returns a signal: nothing divides by zero and the eviction
    finds a price to evict.  With window size 0 every call stops at the
    eviction, whose [window[0]] raises [IndexError] on the empty deque. *)
Theorem window_size_one_and_zero (pre : list MarketDataPoint)
  (tick : MarketDataPoint) :
  (exists sig, windowed_call 1 pre tick = Ok [sig]) /\
  windowed_call 0 pre tick = Raise IndexError.
Proof.
  split.
  - rewrite windowed_call_eq by lia. pose proof (len_nonneg pre) as Hpre.
    replace (len pre + 1 <? 1) with false by (symmetry; apply Z.ltb_ge; lia).
    rewrite float_truediv_one. cbn [bind].
    destruct (compare_to_average_signal (price tick)
                (PrimFloat.div
                   (sum_after 1 [] PrimFloat.zero (prices (pre ++ [tick])))
                   PrimFloat.one)) as [sig Hsig].
    exists sig. rewrite Hsig. reflexivity.
  - unfold windowed_call, call_after, instance_after.
    cbn [construct generate_signals WindowedMovingAverageStrategy_class].
    rewrite windowed_init by lia. cbn [bind].
    rewrite windowed_zero_state, windowed_zero_raises. reflexivity.
Qed.

(** C6 fails at window size 0: the first call of a fresh windowed strategy
    raises [IndexError] at the eviction. *)
Lemma window_size_zero_eviction_fails :
  windowed_call 0 [] (tick_of 100) = Raise IndexError.
Proof. vm_compute. reflexivity. Qed.

(** With window size 0 the naive strategy divides by zero on its first
    call. *)
Lemma naive_zero_divides_by_zero (v : cpython) :
  naive_call v 0 [] (tick_of 100) = Raise ZeroDivisionError.
Proof. destruct v; vm_compute; reflexivity. Qed.

Lemma naive_signals_one_from (v : cpython) (rest : list MarketDataPoint)
  (l : list float) :
  signals (NaiveMovingAverageStrategy_class v)
    {| NaiveMovingAverageStrategy.window_size := 1;
       NaiveMovingAverageStrategy.price_history := l |} rest =
  Ok (map (fun _ => [Hold]) rest).
Proof.
  revert l. induction rest as [|tick rest IH]; intros l; [reflexivity|].
  cbn [signals generate_signals NaiveMovingAverageStrategy_class].
  rewrite naive_generate_signals, IH.
  pose proof (len_nonneg l) as Hl.
  replace (len l + 1 <? 1) with false by (symmetry; apply Z.ltb_ge; lia).
  rewrite naive_mean by lia.
  rewrite last_n_one_snoc, builtin_sum_singleton, float_truediv_one.
  cbn [bind].
  rewrite (FloatFacts.tracks_hold _ _ (FloatFacts.tracks_add_zero (price tick))).
  reflexivity.
Qed.

Lemma windowed_signals_one_from (rest : list MarketDataPoint) :
  forall (l : list float) (s : float),
    (l = [] /\ s = PrimFloat.zero) \/
    (exists l' w, l = l' ++ [w] /\ tracks s w) ->
    signals WindowedMovingAverageStrategy_class
      {| WindowedMovingAverageStrategy.window_size := 1;
         WindowedMovingAverageStrategy.window := last_n 1 l;
         WindowedMovingAverageStrategy.running_sum := s |} rest =
    Ok (map (fun _ => [Hold]) rest).
Proof.
  induction rest as [|tick rest IH]; intros l s Hinv; [reflexivity|].
  cbn [signals generate_signals WindowedMovingAverageStrategy_class].
  rewrite windowed_generate_signals by lia.
  assert (Ht : tracks (next_sum 1 l s (price tick)) (price tick)).
  { unfold next_sum. destruct Hinv as [[-> ->] | (l' & w & -> & Hs)].
    - apply FloatFacts.tracks_add_zero.
    - rewrite len_app. change (len [w]) with 1.
      pose proof (len_nonneg l') as Hl'.
      replace (len l' + 1 <? 1) with false by (symmetry; apply Z.ltb_ge; lia).
      rewrite last_n_one_snoc. cbn [hd].
      apply FloatFacts.tracks_evict. exact Hs. }
  rewrite IH by (right; eauto).
  pose proof (len_nonneg l) as Hl.
  replace (len l + 1 <? 1) with false by (symmetry; apply Z.ltb_ge; lia).
  rewrite float_truediv_one. cbn [bind].
  rewrite (FloatFacts.tracks_hold _ _ Ht). reflexivity.
Qed.

(** C10.  With window size 1 both strategies return [Hold] for every tick
    of every sequence: the price is compared with the mean of the window
    that holds that price alone. *)
Theorem window_size_one_always_holds (v : cpython)
  (ticks : list MarketDataPoint) :
  naive_signals v 1 ticks = Ok (map (fun _ => [Hold]) ticks) /\
  windowed_signals 1 ticks = Ok (map (fun _ => [Hold]) ticks).
Proof.
  unfold naive_signals, windowed_signals, signals_of.
  cbn [construct NaiveMovingAverageStrategy_class
       WindowedMovingAverageStrategy_class].
  split.
  - rewrite naive_init. cbn [bind]. apply naive_signals_one_from.
  - rewrite windowed_init by lia. cbn [bind].
    pose proof (windowed_signals_one_from ticks [] PrimFloat.zero) as H.
    rewrite last_n_nil in H. apply H. left. split; reflexivity.
Qed.

(** ** Signals after the warm-up *)




(** The mean is the computed one: for three prices 0.1 (the float
    [0x1.999999999999ap-4]) the sum is rounded upwards, the quotient lies
    above the price and the answer is [Short]. *)
Lemma naive_rounded_mean (v : cpython) :
  naive_call v 3 (ticks_of (repeat 0x1.999999999999ap-4%float 2))
    (tick_of 0x1.999999999999ap-4) = Ok [Short].
Proof. destruct v; vm_compute; reflexivity. Qed.

(** The same three cases on the windowed strategy. *)
Lemma windowed_signal_cases :
  windowed_call 10 (ticks_of (repeat 100%float 10)) (tick_of 110) = Ok [Long] /\
  windowed_call 10 (ticks_of (repeat 100%float 10)) (tick_of 90) = Ok [Short] /\
  windowed_call 10 (ticks_of (repeat 100%float 10)) (tick_of 100) = Ok [Hold].
Proof. repeat split; vm_compute; reflexivity. Qed.

(** ** The benchmark harness *)

Lemma naive_run (v : cpython) (k : Z) (data : list MarketDataPoint) :
  1 <= k ->
  forall l : list float,
    len l + len data < 2 ^ 63 ->
    run_strategy (NaiveMovingAverageStrategy_class v)
      {| NaiveMovingAverageStrategy.window_size := k;
         NaiveMovingAverageStrategy.price_history := l |} data =
    ({| NaiveMovingAverageStrategy.window_size := k;
        NaiveMovingAverageStrategy.price_history := l ++ prices data |},
     Ok tt).
Proof.
  intros Hk. induction data as [|tick data IH]; intros l Hlen.
  - cbn. rewrite app_nil_r. reflexivity.
  - cbn [run_strategy generate_signals NaiveMovingAverageStrategy_class].
    rewrite naive_generate_signals.
    change (len (tick :: data)) with (Z.of_nat (S (List.length data))) in Hlen.
    pose proof (len_nonneg data) as Hd. unfold len in Hd.
    pose proof (len_nonneg l) as Hl.
    assert (Hout : exists s,
               (if len l + 1 <? k then Ok [Hold]
                else
                  average <- mean_of v (slice_from (l ++ [price tick]) (- k)) k ;;
                  Ok (compare_to_average (price tick) average)) = Ok s).
    { destruct (len l + 1 <? k) eqn:Hwarm; [eauto|].
      apply Z.ltb_ge in Hwarm.
      rewrite naive_mean, float_truediv_small by lia. cbn [bind]. eauto. }
    destruct Hout as [s ->].
    rewrite IH.
    + cbn [prices map]. rewrite <- app_assoc. reflexivity.
    + rewrite len_app. change (len [price tick]) with 1. unfold len at 2. lia.
Qed.

Lemma windowed_run (k : Z) (data : list MarketDataPoint) :
  1 <= k ->
  forall (l : list float) (s : float),
    len l + len data < 2 ^ 63 ->
    run_strategy WindowedMovingAverageStrategy_class
      {| WindowedMovingAverageStrategy.window_size := k;
         WindowedMovingAverageStrategy.window := last_n k l;
         WindowedMovingAverageStrategy.running_sum := s |} data =
    ({| WindowedMovingAverageStrategy.window_size := k;
        WindowedMovingAverageStrategy.window := last_n k (l ++ prices data);
        WindowedMovingAverageStrategy.running_sum :=
          sum_after k l s (prices data) |},
     Ok tt).
Proof.
  intros Hk. induction data as [|tick data IH]; intros l s Hlen.
  - cbn. rewrite app_nil_r. reflexivity.
  - cbn [run_strategy generate_signals WindowedMovingAverageStrategy_class].
    rewrite windowed_generate_signals by exact Hk.
    change (len (tick :: data)) with (Z.of_nat (S (List.length data))) in Hlen.
    pose proof (len_nonneg data) as Hd. unfold len in Hd.
    pose proof (len_nonneg l) as Hl.
    assert (Hout : exists out,
               (if len l + 1 <? k then Ok [Hold]
                else
                  average <- float_truediv (next_sum k l s (price tick)) k ;;
                  Ok (compare_to_average (price tick) average)) = Ok out).
    { destruct (len l + 1 <? k) eqn:Hwarm; [eauto|].
      apply Z.ltb_ge in Hwarm.
      rewrite float_truediv_small by lia. cbn [bind]. eauto. }
    destruct Hout as [out ->].
    rewrite IH.
    + cbn [prices map sum_after]. rewrite <- app_assoc. reflexivity.
    + rewrite len_app. change (len [price tick]) with 1. unfold len at 2. lia.
Qed.

Lemma megabytes_small (n : Z) :
  0 <= n < 2 ^ 63 -> exists m, megabytes n = Ok m.
Proof.
  intros Hn. unfold megabytes. rewrite float_of_int_small by exact Hn.
  cbn [bind]. eauto.
Qed.

Section HarnessFacts.

Variable v : cpython.
Variable csv_rows : string -> result (list (result MarketDataPoint)).
Variable default_timer : nat -> float.
Variable asizeof : forall c : strategy_class, instance c -> Z.

Variable filepath : string.
Variable window_size : Z.
Variable rows : list (result MarketDataPoint).

Hypothesis window_size_positive : 1 <= window_size.
Hypothesis file_read : csv_rows filepath = Ok rows.
Hypothesis rows_well_formed : Forall well_formed_row rows.
Hypothesis asizeof_range :
  forall (c : strategy_class) (s : instance c), 0 <= asizeof c s < 2 ^ 63.

Lemma load_rows_loaded (rs : list (result MarketDataPoint)) :
  Forall well_formed_row rs ->
  forall i limit : Z,
    exists data, load_rows rs i limit = Ok data /\
                 len data <= Z.max 0 (limit - i).
Proof.
  induction 1 as [|row rs [point ->] _ IH]; intros i limit.
  - exists []. split; [reflexivity|]. change (len (@nil MarketDataPoint)) with 0. lia.
  - cbn [load_rows]. destruct (limit <=? i) eqn:Hstop.
    + exists []. split; [reflexivity|].
      change (len (@nil MarketDataPoint)) with 0. lia.
    + apply Z.leb_gt in Hstop.
      destruct (IH (i + 1) limit) as (data & -> & Hlen).
      exists (point :: data). split; [reflexivity|].
      change (len (point :: data)) with (Z.of_nat (S (List.length data))).
      unfold len in Hlen. lia.
Qed.

Lemma load_market_data_limited_loaded (limit : Z) :
  exists data, load_market_data_limited csv_rows filepath limit = Ok data /\
               len data <= Z.max 0 limit.
Proof.
  unfold load_market_data_limited. rewrite file_read. cbn [bind].
  destruct (load_rows_loaded rows rows_well_formed 0 limit) as (data & Hd & Hlen).
  exists data. split; [exact Hd|]. lia.
Qed.

Lemma measure_naive (data : list MarketDataPoint) (clock : nat) :
  len data < 2 ^ 63 ->
  (exists runtime,
      measure_runtime default_timer (NaiveMovingAverageStrategy_class v) data
        window_size clock = Ok (runtime, S (S clock))) /\
  (exists memory,
      measure_memory asizeof (NaiveMovingAverageStrategy_class v) data
        window_size = Ok memory).
Proof.
  intros Hlen. unfold measure_runtime, measure_memory.
  cbn [construct NaiveMovingAverageStrategy_class].
  rewrite naive_init. cbn [bind]. unfold fresh_naive.
  pose proof (naive_run v window_size data window_size_positive []) as Hrun.
  change (len (@nil float)) with 0 in Hrun.
  rewrite Hrun by lia. cbn [snd bind]. split; [eauto|].
  apply megabytes_small, (asizeof_range (NaiveMovingAverageStrategy_class v)).
Qed.

Lemma measure_windowed (data : list MarketDataPoint) (clock : nat) :
  len data < 2 ^ 63 ->
  (exists runtime,
      measure_runtime default_timer WindowedMovingAverageStrategy_class data
        window_size clock = Ok (runtime, S (S clock))) /\
  (exists memory,
      measure_memory asizeof WindowedMovingAverageStrategy_class data
        window_size = Ok memory).
Proof.
  intros Hlen. unfold measure_runtime, measure_memory.
  cbn [construct WindowedMovingAverageStrategy_class].
  rewrite windowed_init by lia. cbn [bind]. unfold fresh_windowed.
  pose proof (windowed_run window_size data window_size_positive []
                PrimFloat.zero) as Hrun.
  rewrite last_n_nil in Hrun. change (len (@nil float)) with 0 in Hrun.
  rewrite Hrun by lia. cbn [snd bind]. split; [eauto|].
  apply megabytes_small, (asizeof_range WindowedMovingAverageStrategy_class).
Qed.

(** The loop appends, for each size in turn, the record of the naive
    strategy and then the record of the windowed strategy. *)
Lemma benchmark_sizes_records (sizes : list Z) :
  Forall (fun size => 0 <= size < 2 ^ 63) sizes ->
  forall (results : list record) (clock : nat),
    exists new,
      benchmark_sizes v csv_rows default_timer asizeof filepath window_size
        sizes results clock = Ok (results ++ new) /\
      map trial new =
        flat_map (fun size =>
                    [(Some (VStr "NaiveMovingAverageStrategy"), Some (VInt size));
                     (Some (VStr "WindowedMovingAverageStrategy"), Some (VInt size))])
          sizes /\
      Forall measurement new.
Proof.
  induction 1 as [|size sizes Hsize _ IH]; intros results clock.
  - exists []. rewrite app_nil_r. repeat split. constructor.
  - cbn [benchmark_sizes].
    destruct (load_market_data_limited_loaded size) as (data & -> & Hlen).
    cbn [bind].
    assert (Hdata : len data < 2 ^ 63) by lia.
    destruct (measure_naive data clock Hdata) as [[t1 ->] [m1 ->]].
    cbn [bind].
    destruct (measure_windowed data (S (S clock)) Hdata) as [[t2 ->] [m2 ->]].
    cbn [bind].
    match goal with
    | |- context [benchmark_sizes _ _ _ _ _ _ sizes ?rs ?cl] =>
        destruct (IH rs cl) as (new & -> & Htrial & Hrec)
    end.
    eexists (_ :: _ :: new). split; [|split].
    + rewrite <- !app_assoc. reflexivity.
    + cbn [map flat_map app]. rewrite Htrial. reflexivity.
    + repeat constructor; [| |exact Hrec]; unfold measurement; eauto 6.
Qed.

(** C8.  [benchmark_all] returns six records: for the sizes 1000, 10000
    and 100000 in this order, the record of the naive strategy followed by
    the record of the windowed strategy for the same size; every record
    has the fields [Strategy], [ticks], [runtime] and [memory]. *)
Theorem benchmark_all_records (clock : nat) :
  exists results,
    benchmark_all v csv_rows default_timer asizeof filepath window_size clock =
      Ok results /\
    map trial results =
      [(Some (VStr "NaiveMovingAverageStrategy"), Some (VInt 1000));
       (Some (VStr "WindowedMovingAverageStrategy"), Some (VInt 1000));
       (Some (VStr "NaiveMovingAverageStrategy"), Some (VInt 10000));
       (Some (VStr "WindowedMovingAverageStrategy"), Some (VInt 10000));
       (Some (VStr "NaiveMovingAverageStrategy"), Some (VInt 100000));
       (Some (VStr "WindowedMovingAverageStrategy"), Some (VInt 100000))] /\
    Forall measurement results.
Proof.
  unfold benchmark_all.
  destruct (benchmark_sizes_records [1000; 10000; 100000]) with
    (results := @nil record) (clock := clock) as (new & Hrun & Htrial & Hrec).
  - repeat constructor; lia.
  - exists new. split; [exact Hrun|]. split; [exact Htrial | exact Hrec].
Qed.

End HarnessFacts.

Lemma benchmark_all_records_witness :
  exists results,
    benchmark_all From_3_12
      (fun _ => Ok [Ok (tick_of 100); Ok (tick_of 101); Ok (tick_of 99)])
      (fun n => PrimFloat.of_uint63 (Uint63.of_Z (Z.of_nat n)))
      (fun _ _ => 4096) "market_data.csv" WINDOW_SIZE 0 = Ok results /\
    map trial results =
      [(Some (VStr "NaiveMovingAverageStrategy"), Some (VInt 1000));
       (Some (VStr "WindowedMovingAverageStrategy"), Some (VInt 1000));
       (Some (VStr "NaiveMovingAverageStrategy"), Some (VInt 10000));
       (Some (VStr "WindowedMovingAverageStrategy"), Some (VInt 10000));
       (Some (VStr "NaiveMovingAverageStrategy"), Some (VInt 100000));
       (Some (VStr "WindowedMovingAverageStrategy"), Some (VInt 100000))] /\
    Forall measurement results.
Proof.
  apply (benchmark_all_records From_3_12
           (fun _ => Ok [Ok (tick_of 100); Ok (tick_of 101); Ok (tick_of 99)])
           (fun n => PrimFloat.of_uint63 (Uint63.of_Z (Z.of_nat n)))
           (fun _ _ => 4096) "market_data.csv" WINDOW_SIZE
           [Ok (tick_of 100); Ok (tick_of 101); Ok (tick_of 99)]).
  - unfold WINDOW_SIZE. lia.
  - reflexivity.
  - repeat constructor; unfold well_formed_row; eauto.
  - intros c s. lia.
Defined.

(** * Further properties of the code *)

(** ** What the strategies retain *)

(** X1.  With window size [k >= 1] the window of the windowed strategy is
    the last [k] prices it was given (all of them while there are fewer),
    oldest first, and the price history of the naive strategy is every
    price it was given, in order; neither changes its window size. *)
Theorem retained_prices (v : cpython) (k : Z) (ticks : list MarketDataPoint) :
  1 <= k ->
  (exists s, windowed_after k ticks = Ok s /\
             WindowedMovingAverageStrategy.window s = last_n k (prices ticks) /\
             WindowedMovingAverageStrategy.window_size s = k) /\
  (exists s, naive_after v k ticks = Ok s /\
             NaiveMovingAverageStrategy.price_history s = prices ticks /\
             NaiveMovingAverageStrategy.window_size s = k).
Proof.
  intros Hk. split.
  - eexists. split; [apply windowed_after_fresh; exact Hk|].
    split; reflexivity.
  - eexists. split; [apply naive_after_fresh|]. split; reflexivity.
Qed.

Lemma retained_prices_witness :
  (exists s, windowed_after 2 (ticks_of [5; 6; 7]%float) = Ok s /\
             WindowedMovingAverageStrategy.window s =
               last_n 2 (prices (ticks_of [5; 6; 7]%float)) /\
             WindowedMovingAverageStrategy.window_size s = 2) /\
  (exists s, naive_after Before_3_12 2 (ticks_of [5; 6; 7]%float) = Ok s /\
             NaiveMovingAverageStrategy.price_history s =
               prices (ticks_of [5; 6; 7]%float) /\
             NaiveMovingAverageStrategy.window_size s = 2).
Proof.
  apply (retained_prices Before_3_12 2 (ticks_of [5; 6; 7]%float)). lia.
Defined.

(** ** Replays that cannot fail *)

Lemma naive_signals_from_ok (v : cpython) (k : Z) (rest : list MarketDataPoint) :
  1 <= k ->
  forall l : list float,
    len l + len rest < 2 ^ 63 ->
    exists ss,
      signals (NaiveMovingAverageStrategy_class v)
        {| NaiveMovingAverageStrategy.window_size := k;
           NaiveMovingAverageStrategy.price_history := l |} rest = Ok ss /\
      len ss = len rest /\ Forall one_signal ss.
Proof.
  intros Hk. induction rest as [|tick rest IH]; intros l Hlen.
  - exists []. repeat split. constructor.
  - cbn [signals generate_signals NaiveMovingAverageStrategy_class].
    rewrite naive_generate_signals.
    change (len (tick :: rest)) with (Z.of_nat (S (List.length rest))) in Hlen.
    pose proof (len_nonneg rest) as Hr. unfold len in Hr.
    pose proof (len_nonneg l) as Hl.
    destruct (IH (l ++ [price tick])) as (ss & -> & Hss & Hone).
    { rewrite len_app. change (len [price tick]) with 1. unfold len at 2. lia. }
    assert (Hout : exists sig,
               (if len l + 1 <? k then Ok [Hold]
                else
                  average <- mean_of v (slice_from (l ++ [price tick]) (- k)) k ;;
                  Ok (compare_to_average (price tick) average)) = Ok [sig]).
    { destruct (len l + 1 <? k) eqn:Hwarm; [eauto|].
      apply Z.ltb_ge in Hwarm.
      rewrite naive_mean, float_truediv_small by lia. cbn [bind].
      destruct (compare_to_average_signal (price tick)
                  (PrimFloat.div
                     (builtin_sum v (last_n k (l ++ [price tick])))
                     (PrimFloat.of_uint63 (Uint63.of_Z k)))) as [sig ->].
      eauto. }
    destruct Hout as [sig ->]. cbn [bind].
    eexists. split; [reflexivity|]. split.
    + change (len ([sig] :: ss)) with (Z.of_nat (S (List.length ss))).
      change (len (tick :: rest)) with (Z.of_nat (S (List.length rest))).
      unfold len in Hss. lia.
    + constructor; [exists sig; reflexivity | exact Hone].
Qed.

Lemma windowed_signals_from_ok (k : Z) (rest : list MarketDataPoint) :
  1 <= k ->
  forall (l : list float) (s : float),
    len l + len rest < 2 ^ 63 ->
    exists ss,
      signals WindowedMovingAverageStrategy_class
        {| WindowedMovingAverageStrategy.window_size := k;
           WindowedMovingAverageStrategy.window := last_n k l;
           WindowedMovingAverageStrategy.running_sum := s |} rest = Ok ss /\
      len ss = len rest /\ Forall one_signal ss.
Proof.
  intros Hk. induction rest as [|tick rest IH]; intros l s Hlen.
  - exists []. repeat split. constructor.
  - cbn [signals generate_signals WindowedMovingAverageStrategy_class].
    rewrite windowed_generate_signals by exact Hk.
    change (len (tick :: rest)) with (Z.of_nat (S (List.length rest))) in Hlen.
    pose proof (len_nonneg rest) as Hr. unfold len in Hr.
    pose proof (len_nonneg l) as Hl.
    destruct (IH (l ++ [price tick]) (next_sum k l s (price tick)))
      as (ss & -> & Hss & Hone).
    { rewrite len_app. change (len [price tick]) with 1. unfold len at 2. lia. }
    assert (Hout : exists sig,
               (if len l + 1 <? k then Ok [Hold]
                else
                  average <- float_truediv (next_sum k l s (price tick)) k ;;
                  Ok (compare_to_average (price tick) average)) = Ok [sig]).
    { destruct (len l + 1 <? k) eqn:Hwarm; [eauto|].
      apply Z.ltb_ge in Hwarm.
      rewrite float_truediv_small by lia. cbn [bind].
      destruct (compare_to_average_signal (price tick)
                  (PrimFloat.div (next_sum k l s (price tick))
                     (PrimFloat.of_uint63 (Uint63.of_Z k)))) as [sig ->].
      eauto. }
    destruct Hout as [sig ->]. cbn [bind].
    eexists. split; [reflexivity|]. split.
    + change (len ([sig] :: ss)) with (Z.of_nat (S (List.length ss))).
      change (len (tick :: rest)) with (Z.of_nat (S (List.length rest))).
      unfold len in Hss. lia.
    + constructor; [exists sig; reflexivity | exact Hone].
Qed.

(** X2.  With window size [k >= 1] a replay of fewer than [2^63] ticks
    raises nothing in either strategy, and every tick gets a list with
    exactly one signal. *)
Theorem replay_returns_one_signal_per_tick (v : cpython) (k : Z)
  (ticks : list MarketDataPoint) :
  1 <= k ->
  len ticks < 2 ^ 63 ->
  (exists ss, naive_signals v k ticks = Ok ss /\
              len ss = len ticks /\ Forall one_signal ss) /\
  (exists ss, windowed_signals k ticks = Ok ss /\
              len ss = len ticks /\ Forall one_signal ss).
Proof.
  intros Hk Hlen. unfold naive_signals, windowed_signals, signals_of.
  cbn [construct NaiveMovingAverageStrategy_class
       WindowedMovingAverageStrategy_class].
  rewrite naive_init, windowed_init by lia. cbn [bind]. split.
  - apply naive_signals_from_ok; [exact Hk|].
    change (len (@nil float)) with 0. lia.
  - pose proof (windowed_signals_from_ok k ticks Hk [] PrimFloat.zero) as H.
    rewrite last_n_nil in H. apply H.
    change (len (@nil float)) with 0. lia.
Qed.

Lemma replay_returns_one_signal_per_tick_witness :
  (exists ss, naive_signals From_3_12 2 (ticks_of [5; 6; 7]%float) = Ok ss /\
              len ss = len (ticks_of [5; 6; 7]%float) /\
              Forall one_signal ss) /\
  (exists ss, windowed_signals 2 (ticks_of [5; 6; 7]%float) = Ok ss /\
              len ss = len (ticks_of [5; 6; 7]%float) /\
              Forall one_signal ss).
Proof.
  apply (replay_returns_one_signal_per_tick From_3_12 2
           (ticks_of [5; 6; 7]%float)); cbn; lia.
Defined.

(** ** The naive strategy with window size 0 *)

(** X3.  With window size 0 every call of the naive strategy raises
    [ZeroDivisionError], however many ticks came before, and the price of
    the tick has been appended to the history all the same. *)
Theorem naive_window_size_zero (v : cpython) (pre : list MarketDataPoint)
  (tick : MarketDataPoint) :
  naive_call v 0 pre tick = Raise ZeroDivisionError /\
  naive_after v 0 (pre ++ [tick]) =
    Ok {| NaiveMovingAverageStrategy.window_size := 0;
          NaiveMovingAverageStrategy.price_history :=
            prices pre ++ [price tick] |}.
Proof.
  split.
  - rewrite naive_call_eq. pose proof (len_nonneg pre) as Hpre.
    replace (len pre + 1 <? 0) with false by (symmetry; apply Z.ltb_ge; lia).
    change (- 0) with 0. unfold slice_from. cbn [Z.ltb Z.compare].
    rewrite Z.min_l by apply len_nonneg. cbn [Z.to_nat skipn].
    rewrite mean_of_nonempty by (destruct (prices pre); discriminate).
    reflexivity.
  - rewrite naive_after_fresh. unfold prices. rewrite map_app. reflexivity.
Qed.

(** ** The naive strategy looks at the last [k] prices only *)

(** X6.  After the warm-up the answer of the naive strategy depends on the
    last [k] prices alone: two histories that end with the same [k] prices
    get the same signal. *)
Theorem naive_signal_from_last_prices (v : cpython) (k : Z)
  (pre1 pre2 : list MarketDataPoint) (tick : MarketDataPoint) :
  1 <= k ->
  k <= len pre1 + 1 ->
  k <= len pre2 + 1 ->
  last_n k (prices (pre1 ++ [tick])) = last_n k (prices (pre2 ++ [tick])) ->
  naive_call v k pre1 tick = naive_call v k pre2 tick.
Proof.
  intros Hk H1 H2 Hlast. rewrite !naive_call_eq.
  replace (len pre1 + 1 <? k) with false by (symmetry; apply Z.ltb_ge; lia).
  replace (len pre2 + 1 <? k) with false by (symmetry; apply Z.ltb_ge; lia).
  rewrite !naive_mean by exact Hk.
  unfold prices in Hlast. rewrite !map_app in Hlast. cbn [map] in Hlast.
  unfold prices. rewrite Hlast. reflexivity.
Qed.

Lemma naive_signal_from_last_prices_witness :
  naive_call From_3_12 2 (ticks_of [1e16; 1]%float) (tick_of 1) =
  naive_call From_3_12 2 (ticks_of [1]%float) (tick_of 1).
Proof.
  apply (naive_signal_from_last_prices From_3_12 2
           (ticks_of [1e16; 1]%float) (ticks_of [1]%float) (tick_of 1));
    try (cbn; lia).
  reflexivity.
Defined.

(** The windowed strategy has no such property: the same two histories,
    whose windows both hold [[1.0, 1.0]], get [Long] and [Hold]. *)
Lemma windowed_signal_not_from_last_prices :
  windowed_call 2 (ticks_of [1e16; 1]%float) (tick_of 1) = Ok [Long] /\
  windowed_call 2 (ticks_of [1]%float) (tick_of 1) = Ok [Hold].
Proof. split; vm_compute; reflexivity. Qed.

(** ** A NaN price *)

Lemma is_nan_Prim2SF (x : float) :
  PrimFloat.is_nan x = true -> Prim2SF x = S754_nan.
Proof.
  unfold PrimFloat.is_nan. rewrite eqb_spec. unfold SFeqb. intros H.
  destruct (Prim2SF x) as [s|s| |s m e] eqn:Hx; [| |reflexivity|].
  - destruct s; discriminate.
  - destruct s; discriminate.
  - rewrite (FloatFacts.SFcompare_refl (S754_finite s m e)) in H
      by discriminate.
    discriminate.
Qed.

(** Once NaN, the running sum stays NaN. *)
Lemma next_sum_nan (k : Z) (l : list float) (s p : float) :
  Prim2SF s = S754_nan \/ Prim2SF p = S754_nan ->
  Prim2SF (next_sum k l s p) = S754_nan.
Proof.
  unfold next_sum. rewrite add_spec. intros [Hs | Hp].
  - destruct (len l <? k).
    + rewrite Hs. reflexivity.
    + rewrite sub_spec, Hs. reflexivity.
  - rewrite Hp.
    destruct (Prim2SF (if len l <? k then s
                       else PrimFloat.sub s (hd PrimFloat.zero (last_n k l))))
      as [sz|sz| |sz m e]; reflexivity.
Qed.

Lemma sum_after_nan (k : Z) (ps : list float) :
  forall (l : list float) (s : float),
    Prim2SF s = S754_nan -> Prim2SF (sum_after k l s ps) = S754_nan.
Proof.
  induction ps as [|p ps IH]; intros l s Hs; [exact Hs|].
  cbn [sum_after]. apply IH, next_sum_nan. left. exact Hs.
Qed.

Lemma sum_after_nan_price (k : Z) (ps1 ps2 : list float) (p : float) :
  forall (l : list float) (s : float),
    Prim2SF p = S754_nan ->
    Prim2SF (sum_after k l s (ps1 ++ p :: ps2)) = S754_nan.
Proof.
  induction ps1 as [|q ps1 IH]; intros l s Hp.
  - cbn [app sum_after]. apply sum_after_nan, next_sum_nan. right. exact Hp.
  - cbn [app sum_after]. apply IH. exact Hp.
Qed.

Lemma compare_to_nan_average (p s d : float) :
  Prim2SF s = S754_nan -> compare_to_average p (PrimFloat.div s d) = [Hold].
Proof.
  intros Hs. unfold compare_to_average. rewrite !ltb_spec, div_spec, Hs.
  unfold SFltb. cbn [SF64div SFdiv SFcompare].
  destruct (Prim2SF p) as [sz|sz| |sz m e]; reflexivity.
Qed.

(** X4.  A NaN price stays in the running sum of the windowed strategy for
    good: with window size [k >= 1], every call after a tick whose price is
    NaN returns [Hold], also when that tick has long left the window. *)
Theorem windowed_holds_after_nan (k : Z) (pre1 pre2 : list MarketDataPoint)
  (bad tick : MarketDataPoint) :
  1 <= k ->
  PrimFloat.is_nan (price bad) = true ->
  len (pre1 ++ bad :: pre2) + 1 < 2 ^ 63 ->
  windowed_call k (pre1 ++ bad :: pre2) tick = Ok [Hold].
Proof.
  intros Hk Hbad Hlen. rewrite windowed_call_eq by exact Hk.
  destruct (len (pre1 ++ bad :: pre2) + 1 <? k) eqn:Hwarm; [reflexivity|].
  apply Z.ltb_ge in Hwarm.
  rewrite float_truediv_small by lia. cbn [bind].
  rewrite compare_to_nan_average; [reflexivity|].
  unfold prices. rewrite <- app_assoc, map_app. cbn [app map].
  apply sum_after_nan_price, is_nan_Prim2SF. exact Hbad.
Qed.

Lemma windowed_holds_after_nan_witness :
  windowed_call 2 (ticks_of [PrimFloat.nan; 1; 2; 1]%float) (tick_of 5) =
  Ok [Hold].
Proof.
  apply (windowed_holds_after_nan 2 [] (ticks_of [1; 2; 1]%float)
           (tick_of PrimFloat.nan) (tick_of 5)).
  - lia.
  - reflexivity.
  - cbn. lia.
Defined.

(** The naive strategy answers again once the NaN has left its slice. *)
Lemma naive_recovers_after_nan (v : cpython) :
  naive_call v 2 (ticks_of [PrimFloat.nan; 1; 2; 1]%float) (tick_of 5) =
  Ok [Long].
Proof. destruct v; vm_compute; reflexivity. Qed.

(** ** The first [window_size] ticks under left-to-right summation *)

Lemma sum_matches_along_filling (k : Z) (rest : list MarketDataPoint) :
  1 <= k ->
  forall l : list float,
    len l + len rest <= k ->
    sum_matches_along Before_3_12
      {| WindowedMovingAverageStrategy.window_size := k;
         WindowedMovingAverageStrategy.window := last_n k l;
         WindowedMovingAverageStrategy.running_sum := sum_left l |} rest = true.
Proof.
  intros Hk. induction rest as [|tick rest IH]; intros l Hlen.
  - reflexivity.
  - cbn [sum_matches_along].
    rewrite windowed_generate_signals by exact Hk. cbn [fst].
    change (len (tick :: rest)) with (Z.of_nat (S (List.length rest))) in Hlen.
    pose proof (len_nonneg rest) as Hr. unfold len in Hr.
    assert (Hn : next_sum k l (sum_left l) (price tick) =
                 sum_left (l ++ [price tick])).
    { unfold next_sum.
      replace (len l <? k) with true by (symmetry; apply Z.ltb_lt; lia).
      symmetry. apply sum_left_snoc. }
    rewrite Hn. apply andb_true_intro. split.
    + apply sum_matches_true.
      cbn [WindowedMovingAverageStrategy.window
           WindowedMovingAverageStrategy.running_sum builtin_sum].
      rewrite last_n_short; [reflexivity|].
      rewrite len_app. change (len [price tick]) with 1. lia.
    + apply IH. rewrite len_app. change (len [price tick]) with 1.
      unfold len at 2. lia.
Qed.

(** X5.  Where [sum] adds left to right (CPython up to 3.11), the two
    strategies return the same signals for every sequence of at most
    [window_size] ticks: up to the first full window the running sum is
    the very sum the naive strategy computes. *)
Theorem signals_agree_while_filling (k : Z) (ticks : list MarketDataPoint) :
  1 <= k ->
  len ticks <= k ->
  naive_signals Before_3_12 k ticks = windowed_signals k ticks.
Proof.
  intros Hk Hlen. unfold naive_signals, windowed_signals, signals_of.
  cbn [construct NaiveMovingAverageStrategy_class
       WindowedMovingAverageStrategy_class].
  rewrite naive_init, windowed_init by lia. cbn [bind].
  pose proof (signals_agree_from Before_3_12 k ticks Hk [] PrimFloat.zero) as H.
  rewrite last_n_nil in H. apply H.
  pose proof (sum_matches_along_filling k ticks Hk []) as Hm.
  rewrite last_n_nil in Hm. apply Hm.
  change (len (@nil float)) with 0. lia.
Qed.

Lemma signals_agree_while_filling_witness :
  naive_signals Before_3_12 3 (ticks_of [1e16; 1; 1]%float) =
  windowed_signals 3 (ticks_of [1e16; 1; 1]%float).
Proof.
  apply (signals_agree_while_filling 3 (ticks_of [1e16; 1; 1]%float));
    cbn; lia.
Defined.

(** With the compensated [sum] of CPython 3.12 the first full window can
    already tell the two apart: for the prices [1, 2^53, 2^52 + 1] and
    window size 3 the compensated sum is [3 * (2^52 + 1) - 1] and the
    running sum two less. *)
Lemma signals_differ_at_first_window :
  naive_signals From_3_12 3
    (ticks_of [1; 9007199254740992; 4503599627370497]%float) =
    Ok [[Hold]; [Hold]; [Hold]] /\
  windowed_signals 3
    (ticks_of [1; 9007199254740992; 4503599627370497]%float) =
    Ok [[Hold]; [Hold]; [Long]].
Proof. split; vm_compute; reflexivity. Qed.

(** ** [run_strategy] *)





(** ** [load_market_data_limited] *)




Lemma load_rows_malformed (points : list MarketDataPoint) (e : exn)
  (rest : list (result MarketDataPoint)) (limit : Z) :
  forall i : Z,
    i + len points < limit ->
    load_rows (map Ok points ++ Raise e :: rest) i limit = Raise e.
Proof.
  induction points as [|point points IH]; intros i Hi.
  - change (len (@nil MarketDataPoint)) with 0 in Hi.
    cbn [map app load_rows].
    replace (limit <=? i) with false by (symmetry; apply Z.leb_gt; lia).
    reflexivity.
  - change (len (point :: points)) with (Z.of_nat (S (List.length points))) in Hi.
    pose proof (len_nonneg points) as Hp. unfold len in Hp.
    cbn [map app load_rows].
    replace (limit <=? i) with false by (symmetry; apply Z.leb_gt; lia).
    cbn [bind]. rewrite IH by (unfold len; lia). reflexivity.
Qed.

Section LoaderFacts.

Variable csv_rows : string -> result (list (result MarketDataPoint)).
Variable filename : string.
Variable rows : list (result MarketDataPoint).
Hypothesis file_read : csv_rows filename = Ok rows.


(** X9.  A row that raises among the first [limit] rows makes
    [load_market_data_limited] raise the same exception: no list of the
    ticks before it is returned. *)
Theorem load_market_data_limited_malformed (limit : Z)
  (points : list MarketDataPoint) (e : exn)
  (rest : list (result MarketDataPoint)) :
  rows = map Ok points ++ Raise e :: rest ->
  len points < limit ->
  load_market_data_limited csv_rows filename limit = Raise e.
Proof.
  intros -> Hlen. unfold load_market_data_limited.
  rewrite file_read. cbn [bind]. apply load_rows_malformed. lia.
Qed.

End LoaderFacts.


Lemma load_market_data_limited_malformed_witness :
  load_market_data_limited
    (fun _ => Ok [Ok (tick_of 1); Ok (tick_of 2); Raise ValueError])
    "market_data.csv" 3 = Raise ValueError.
Proof.
  apply (load_market_data_limited_malformed
           (fun _ => Ok [Ok (tick_of 1); Ok (tick_of 2); Raise ValueError])
           "market_data.csv"
           [Ok (tick_of 1); Ok (tick_of 2); Raise ValueError]
           eq_refl 3 [tick_of 1; tick_of 2] ValueError []).
  - reflexivity.
  - cbn. lia.
Defined.

(** ** What the harness measures and when it fails *)



Section HarnessMeasurements.

Variable v : cpython.
Variable csv_rows : string -> result (list (result MarketDataPoint)).
Variable default_timer : nat -> float.
Variable asizeof : forall c : strategy_class, instance c -> Z.

(** X10.  With window size [k >= 1] and fewer than [2^63] ticks,
    [measure_memory] sizes the strategy as the replay leaves it: the naive
    instance with every price of the data in its history, the windowed
    instance with the last [k] prices in its window. *)
Theorem measure_memory_after_replay (k : Z) (data : list MarketDataPoint) :
  1 <= k ->
  len data < 2 ^ 63 ->
  measure_memory asizeof (NaiveMovingAverageStrategy_class v) data k =
    megabytes
      (asizeof (NaiveMovingAverageStrategy_class v)
         {| NaiveMovingAverageStrategy.window_size := k;
            NaiveMovingAverageStrategy.price_history := prices data |}) /\
  measure_memory asizeof WindowedMovingAverageStrategy_class data k =
    megabytes
      (asizeof WindowedMovingAverageStrategy_class
         {| WindowedMovingAverageStrategy.window_size := k;
            WindowedMovingAverageStrategy.window := last_n k (prices data);
            WindowedMovingAverageStrategy.running_sum :=
              sum_after k [] PrimFloat.zero (prices data) |}).
Proof.
  intros Hk Hlen. unfold measure_memory.
  cbn [construct NaiveMovingAverageStrategy_class
       WindowedMovingAverageStrategy_class].
  rewrite naive_init, windowed_init by lia. cbn [bind].
  unfold fresh_naive, fresh_windowed. split.
  - pose proof (naive_run v k data Hk []) as Hrun.
    change (len (@nil float)) with 0 in Hrun.
    rewrite Hrun by lia. reflexivity.
  - pose proof (windowed_run k data Hk [] PrimFloat.zero) as Hrun.
    rewrite last_n_nil in Hrun. change (len (@nil float)) with 0 in Hrun.
    rewrite Hrun by lia. reflexivity.
Qed.

Variable filepath : string.
Variable rows : list (result MarketDataPoint).

Hypothesis file_read : csv_rows filepath = Ok rows.
Hypothesis rows_well_formed : Forall well_formed_row rows.
Hypothesis asizeof_range :
  forall (c : strategy_class) (s : instance c), 0 <= asizeof c s < 2 ^ 63.

(** X11.  With window size 0 and a file that has at least one row,
    [benchmark_all] raises [ZeroDivisionError], from the first replay of
    the naive strategy: no record is returned. *)
Theorem benchmark_all_window_size_zero (clock : nat) :
  rows <> [] ->
  benchmark_all v csv_rows default_timer asizeof filepath 0 clock =
  Raise ZeroDivisionError.
Proof.
  intros Hrows. unfold benchmark_all. cbn [benchmark_sizes].
  unfold load_market_data_limited. rewrite file_read. cbn [bind].
  destruct rows_well_formed as [|row rest [point ->] Hrest];
    [congruence|].
  cbn [load_rows Z.leb Z.compare bind].
  destruct (load_rows_loaded rest Hrest (0 + 1) 1000) as (data & -> & _).
  cbn [bind]. unfold measure_runtime.
  cbn [construct NaiveMovingAverageStrategy_class].
  rewrite naive_init. cbn [bind].
  cbn [run_strategy generate_signals NaiveMovingAverageStrategy_class].
  unfold fresh_naive. rewrite naive_generate_signals.
  destruct v; reflexivity.
Qed.


End HarnessMeasurements.

Lemma measure_memory_after_replay_witness :
  measure_memory (fun _ _ => 4096) (NaiveMovingAverageStrategy_class From_3_12)
    (ticks_of [5; 6; 7]%float) 2 =
    megabytes 4096 /\
  measure_memory (fun _ _ => 4096) WindowedMovingAverageStrategy_class
    (ticks_of [5; 6; 7]%float) 2 =
    megabytes 4096.
Proof.
  apply (measure_memory_after_replay From_3_12 (fun _ _ => 4096) 2
           (ticks_of [5; 6; 7]%float)); cbn; lia.
Defined.

Lemma benchmark_all_window_size_zero_witness :
  benchmark_all From_3_12 (fun _ => Ok [Ok (tick_of 100)])
    (fun _ => PrimFloat.zero) (fun _ _ => 4096) "market_data.csv" 0 0 =
  Raise ZeroDivisionError.
Proof.
  apply (benchmark_all_window_size_zero From_3_12
           (fun _ => Ok [Ok (tick_of 100)]) (fun _ => PrimFloat.zero)
           (fun _ _ => 4096) "market_data.csv" [Ok (tick_of 100)]).
  - reflexivity.
  - repeat constructor. exists (tick_of 100). reflexivity.
  - discriminate.
Defined.


(** ** The records as the report reads them *)

Lemma measurement_of_trial (r : record) (strategy : string) (ticks : Z) :
  measurement r ->
  lookup "Strategy" r = Some (VStr strategy) ->
  lookup "ticks" r = Some (VInt ticks) ->
  exists runtime memory,
    r = [("Strategy", VStr strategy); ("ticks", VInt ticks);
         ("runtime", VFloat runtime); ("memory", VFloat memory)].
Proof.
  intros (s & n & t & m & ->) Hs Hn. cbn in Hs, Hn.
  injection Hs as ->. injection Hn as ->. eauto.
Qed.

Section ReportFacts.

Variable v : cpython.
Variable csv_rows : string -> result (list (result MarketDataPoint)).
Variable default_timer : nat -> float.
Variable asizeof : forall c : strategy_class, instance c -> Z.

Variable filepath : string.
Variable window_size : Z.
Variable rows : list (result MarketDataPoint).

Hypothesis window_size_positive : 1 <= window_size.
Hypothesis file_read : csv_rows filepath = Ok rows.
Hypothesis rows_well_formed : Forall well_formed_row rows.
Hypothesis asizeof_range :
  forall (c : strategy_class) (s : instance c), 0 <= asizeof c s < 2 ^ 63.

(** X13.  On the records [benchmark_all] returns, the two selections by
    strategy that [generate_plots] and [generate_report] start with raise
    no [KeyError] and keep three records each, and the sizes of the naive
    records and of the windowed records are both 1000, 10000, 100000: the
    pairs of [zip(naive_results, windowed_results)] are records of the
    same size. *)
Theorem report_pairs_records_by_size (clock : nat) :
  exists results naive_results windowed_results,
    benchmark_all v csv_rows default_timer asizeof filepath window_size clock =
      Ok results /\
    results_of "NaiveMovingAverageStrategy" results = Some naive_results /\
    results_of "WindowedMovingAverageStrategy" results =
      Some windowed_results /\
    column "ticks" naive_results =
      Some [VInt 1000; VInt 10000; VInt 100000] /\
    column "ticks" windowed_results =
      Some [VInt 1000; VInt 10000; VInt 100000].
Proof.
  unfold benchmark_all.
  destruct (benchmark_sizes_records v csv_rows default_timer asizeof filepath
              window_size rows window_size_positive file_read
              rows_well_formed asizeof_range [1000; 10000; 100000])
    with (results := @nil record) (clock := clock)
    as (new & Hrun & Htrial & Hrec).
  { repeat constructor; lia. }
  cbn [app] in Hrun. cbn [flat_map app] in Htrial.
  destruct new as [|r1 [|r2 [|r3 [|r4 [|r5 [|r6 [|r7 new]]]]]]];
    try discriminate Htrial.
  cbn [map] in Htrial. unfold trial in Htrial.
  injection Htrial as S1 T1 S2 T2 S3 T3 S4 T4 S5 T5 S6 T6.
  inversion Hrec as [|? ? M1 Hrec1]; subst.
  inversion Hrec1 as [|? ? M2 Hrec2]; subst.
  inversion Hrec2 as [|? ? M3 Hrec3]; subst.
  inversion Hrec3 as [|? ? M4 Hrec4]; subst.
  inversion Hrec4 as [|? ? M5 Hrec5]; subst.
  inversion Hrec5 as [|? ? M6 _]; subst.
  destruct (measurement_of_trial _ _ _ M1 S1 T1) as (t1 & m1 & ->).
  destruct (measurement_of_trial _ _ _ M2 S2 T2) as (t2 & m2 & ->).
  destruct (measurement_of_trial _ _ _ M3 S3 T3) as (t3 & m3 & ->).
  destruct (measurement_of_trial _ _ _ M4 S4 T4) as (t4 & m4 & ->).
  destruct (measurement_of_trial _ _ _ M5 S5 T5) as (t5 & m5 & ->).
  destruct (measurement_of_trial _ _ _ M6 S6 T6) as (t6 & m6 & ->).
  do 3 eexists. split; [exact Hrun|].
  split; [reflexivity|]. split; [reflexivity|]. split; reflexivity.
Qed.

End ReportFacts.

Lemma report_pairs_records_by_size_witness :
  exists results naive_results windowed_results,
    benchmark_all From_3_12
      (fun _ => Ok [Ok (tick_of 100); Ok (tick_of 101); Ok (tick_of 99)])
      (fun n => PrimFloat.of_uint63 (Uint63.of_Z (Z.of_nat n)))
      (fun _ _ => 4096) "market_data.csv" WINDOW_SIZE 0 = Ok results /\
    results_of "NaiveMovingAverageStrategy" results = Some naive_results /\
    results_of "WindowedMovingAverageStrategy" results =
      Some windowed_results /\
    column "ticks" naive_results =
      Some [VInt 1000; VInt 10000; VInt 100000] /\
    column "ticks" windowed_results =
      Some [VInt 1000; VInt 10000; VInt 100000].
Proof.
  apply (report_pairs_records_by_size From_3_12
           (fun _ => Ok [Ok (tick_of 100); Ok (tick_of 101); Ok (tick_of 99)])
           (fun n => PrimFloat.of_uint63 (Uint63.of_Z (Z.of_nat n)))
           (fun _ _ => 4096) "market_data.csv" WINDOW_SIZE
           [Ok (tick_of 100); Ok (tick_of 101); Ok (tick_of 99)]).
  - unfold WINDOW_SIZE. lia.
  - reflexivity.
  - repeat constructor; unfold well_formed_row; eauto.
  - intros c s. lia.
Defined.

(** ** The loader, row by row *)

Lemma substring_prefix (body rest : string) :
  String.substring 0 (String.length body) (body ++ rest)%string = body.
Proof.
  induction body as [|c body IH].
  - destruct rest; reflexivity.
  - cbn [String.length String.append String.substring]. rewrite IH.
    reflexivity.
Qed.

Lemma string_length_append (a b : string) :
  String.length (a ++ b)%string = (String.length a + String.length b)%nat.
Proof.
  induction a as [|c a IH]; [reflexivity|].
  cbn [String.append String.length]. rewrite IH. reflexivity.
Qed.

(** X14.  [parse_timestamp] drops the last six characters of its argument
    unread: whatever UTC offset a timestamp ends with, it is parsed as the
    text before the offset. *)
Theorem parse_timestamp_ignores_offset (strptime : string -> csv.outcome Z)
  (body offset : string) :
  String.length offset = 6%nat ->
  csv.parse_timestamp strptime (Some (body ++ offset)%string) = strptime body.
Proof.
  intros Hlen. unfold csv.parse_timestamp.
  rewrite string_length_append, Hlen, Nat.add_sub.
  rewrite substring_prefix. reflexivity.
Qed.

Lemma parse_timestamp_ignores_offset_witness :
  csv.parse_timestamp
    (fun text => if String.eqb text "2024-01-02 09:30:00"
                 then csv.Returned 0 else csv.Raised csv.ValueError)
    (Some "2024-01-02 09:30:00-05:00") = csv.Returned 0.
Proof.
  apply (parse_timestamp_ignores_offset
           (fun text => if String.eqb text "2024-01-02 09:30:00"
                        then csv.Returned 0 else csv.Raised csv.ValueError)
           "2024-01-02 09:30:00" "-05:00").
  reflexivity.
Defined.

(** X15.  [load_market_data] never returns a tick: it returns the empty
    list for a file without rows and raises for every file with at least
    one row, with [TypeError] when the timestamp of the first row parses
    (the row is called where it should be indexed). *)
Theorem load_market_data_never_loads
  (strptime : string -> csv.outcome Z)
  (float_of_str : string -> csv.outcome float)
  (read_rows : string -> csv.outcome (list csv.row))
  (filename : string) (rows : list csv.row) :
  read_rows filename = csv.Returned rows ->
  (rows = [] ->
   csv.load_market_data strptime float_of_str read_rows filename =
   csv.Returned []) /\
  (forall r rest,
      rows = r :: rest ->
      (exists e,
          csv.load_market_data strptime float_of_str read_rows filename =
          csv.Raised e) /\
      (forall t,
          csv.then_ (csv.getitem "timestamp" r) (csv.parse_timestamp strptime) =
            csv.Returned t ->
          csv.load_market_data strptime float_of_str read_rows filename =
          csv.Raised csv.TypeError)).
Proof.
  intros Hread. unfold csv.load_market_data. rewrite Hread. cbn [csv.then_].
  split.
  - intros ->. reflexivity.
  - intros r rest ->. cbn [csv.load_points]. unfold csv.point_of_row.
    destruct (csv.then_ (csv.getitem "timestamp" r)
                (csv.parse_timestamp strptime)) as [t|e].
    + split; [exists csv.TypeError; reflexivity|]. intros t' _. reflexivity.
    + split; [exists e; reflexivity|]. intros t' Ht. discriminate Ht.
Qed.

Lemma load_market_data_never_loads_witness :
  csv.load_market_data
    (fun _ => csv.Returned 0) (fun _ => csv.Raised csv.ValueError)
    (fun _ => csv.Returned
                [[("timestamp", Some "2024-01-02 09:30:00-05:00");
                  ("symbol", Some "ANET"); ("price", Some "100.5")]])
    "market_data.csv" = csv.Raised csv.TypeError.
Proof.
  apply (proj2
           (proj2 (load_market_data_never_loads
                     (fun _ => csv.Returned 0)
                     (fun _ => csv.Raised csv.ValueError)
                     (fun _ => csv.Returned
                        [[("timestamp", Some "2024-01-02 09:30:00-05:00");
                          ("symbol", Some "ANET"); ("price", Some "100.5")]])
                     "market_data.csv"
                     [[("timestamp", Some "2024-01-02 09:30:00-05:00");
                       ("symbol", Some "ANET"); ("price", Some "100.5")]]
                     eq_refl)
              [("timestamp", Some "2024-01-02 09:30:00-05:00");
               ("symbol", Some "ANET"); ("price", Some "100.5")]
              [] eq_refl)
           0).
  reflexivity.
Defined.
